(** * JSON Tree Visualizer: the tree renderer and the path search engine

    A shallow embedding of [app.py] and the properties of its
    specification.

    Python values are embedded as follows.
    - [str] is [string]; a character stands for the code point of the same
      number, so the embedding covers the texts whose code points lie in
      U+0000..U+00FF.  [str.lower], [repr] and [json.dumps] are written out
      for that range.
    - [int] is [Z].
    - [float] is observed by the program through its textual form only (and
      through its truth value in [main]); a finite float is carried as the text
      [float.__repr__] gives for it.
    - [dict] is an association list in insertion order; [list] is [list]. *)

From Stdlib Require Import ZArith List String Ascii Bool Lia.
From Stdlib Require Import Numbers.DecimalString.
Import ListNotations.

Open Scope bool_scope.
Open Scope string_scope.
Open Scope Z_scope.

(** ** Python text operations *)

Module PyStr.

Definition chr (n : nat) : ascii := ascii_of_nat n.
Definition ord (c : ascii) : nat := nat_of_ascii c.

Definition of_char (c : ascii) : string := String c EmptyString.

Definition dquote : ascii := chr 34.
Definition squote : ascii := chr 39.
Definition backslash : ascii := chr 92.
Definition dq : string := of_char dquote.
Definition sq : string := of_char squote.
Definition bs : string := of_char backslash.
Definition nl : string := of_char (chr 10).
Definition cr : string := of_char (chr 13).

(** [" " * n] *)
Fixpoint spaces (n : nat) : string :=
  match n with
  | O => ""
  | S m => String " " (spaces m)
  end.

(** The truth value of a text: non-empty. *)
Definition truthy (s : string) : bool :=
  match s with
  | EmptyString => false
  | String _ _ => true
  end.

(** [str.lower] on one code point of U+0000..U+00FF: A-Z, and the Latin-1
    capitals U+00C0..U+00DE without the multiplication sign U+00D7. *)
Definition lower_char (c : ascii) : ascii :=
  let n := ord c in
  if ((65 <=? n) && (n <=? 90))%nat then chr (n + 32)
  else if ((192 <=? n) && (n <=? 222) && negb (n =? 215))%nat then chr (n + 32)
  else c.

Fixpoint lower (s : string) : string :=
  match s with
  | EmptyString => EmptyString
  | String c r => String (lower_char c) (lower r)
  end.

(** [s.startswith(p)] *)
Fixpoint startswith (p s : string) : bool :=
  match p, s with
  | EmptyString, _ => true
  | String _ _, EmptyString => false
  | String a p', String b s' => Ascii.eqb a b && startswith p' s'
  end.

(** [needle in hay] for texts. *)
Fixpoint contains (needle hay : string) : bool :=
  startswith needle hay ||
  match hay with
  | EmptyString => false
  | String _ r => contains needle r
  end.

Fixpoint has_char (c : ascii) (s : string) : bool :=
  match s with
  | EmptyString => false
  | String a r => Ascii.eqb a c || has_char c r
  end.

(** [sep.join(parts)] *)
Fixpoint join (sep : string) (parts : list string) : string :=
  match parts with
  | [] => ""
  | [p] => p
  | p :: rest => p ++ sep ++ join sep rest
  end.

(** [str(n)] for an [int]. *)
Definition int_str (n : Z) : string := NilEmpty.string_of_int (Z.to_int n).

Definition hex_digit (n : nat) : ascii :=
  if (n <? 10)%nat then chr (48 + n) else chr (87 + n).

(** Two lower-case hexadecimal digits of a code point below 256. *)
Definition hex2 (n : nat) : string :=
  String (hex_digit (n / 16)) (String (hex_digit (n mod 16)) EmptyString).

End PyStr.

(** ** Python values *)

Module Py.
Import PyStr.

Inductive PyFloat : Type :=
| FFinite (repr : string)
| FNaN
| FInf
| FNegInf.

(** What [json.loads] can return. *)
#[local] Unset Elimination Schemes.
Inductive PyValue : Type :=
| PStr (s : string)
| PInt (n : Z)
| PFloat (f : PyFloat)
| PBool (b : bool)
| PNone
| PDict (items : list (string * PyValue))
| PList (elems : list PyValue).
#[local] Set Elimination Schemes.

(** The classes [app.py] tests with [isinstance]. *)
Inductive PyClass : Type :=
| Cstr | Cint | Cfloat | Cbool | CNoneType | Cdict | Clist.

Definition class_eqb (a b : PyClass) : bool :=
  match a, b with
  | Cstr, Cstr | Cint, Cint | Cfloat, Cfloat | Cbool, Cbool
  | CNoneType, CNoneType | Cdict, Cdict | Clist, Clist => true
  | _, _ => false
  end.

Definition type_of (v : PyValue) : PyClass :=
  match v with
  | PStr _ => Cstr
  | PInt _ => Cint
  | PFloat _ => Cfloat
  | PBool _ => Cbool
  | PNone => CNoneType
  | PDict _ => Cdict
  | PList _ => Clist
  end.

(** [bool] is a subclass of [int]; the other classes here are unrelated. *)
Definition issubclass (c d : PyClass) : bool :=
  class_eqb c d ||
  match c, d with
  | Cbool, Cint => true
  | _, _ => false
  end.

Definition isinstance (v : PyValue) (c : PyClass) : bool :=
  issubclass (type_of v) c.

(** [isinstance(v, (c1, c2, ...))] *)
Definition isinstance_any (v : PyValue) (cs : list PyClass) : bool :=
  existsb (isinstance v) cs.

Definition float_repr (f : PyFloat) : string :=
  match f with
  | FFinite r => r
  | FNaN => "nan"
  | FInf => "inf"
  | FNegInf => "-inf"
  end.

Definition bool_repr (b : bool) : string := if b then "True" else "False".

(** [repr] of a text: the quote is the apostrophe unless the text has an
    apostrophe and no double quote. *)
Definition repr_quote (s : string) : ascii :=
  if has_char squote s && negb (has_char dquote s) then dquote else squote.

Definition printable (n : nat) : bool :=
  ((32 <=? n) && (n <? 127) || (161 <=? n) && negb (n =? 173))%nat.

Definition repr_char (q c : ascii) : string :=
  let n := ord c in
  if Ascii.eqb c q || Ascii.eqb c backslash then String backslash (of_char c)
  else if (n =? 9)%nat then bs ++ "t"
  else if (n =? 10)%nat then bs ++ "n"
  else if (n =? 13)%nat then bs ++ "r"
  else if printable n then of_char c
  else bs ++ "x" ++ hex2 n.

Fixpoint repr_chars (q : ascii) (s : string) : string :=
  match s with
  | EmptyString => EmptyString
  | String c r => repr_char q c ++ repr_chars q r
  end.

Definition str_repr (s : string) : string :=
  let q := repr_quote s in
  String q (repr_chars q s) ++ of_char q.

(** [repr(v)] *)
Fixpoint repr (v : PyValue) : string :=
  match v with
  | PStr s => str_repr s
  | PInt n => int_str n
  | PFloat f => float_repr f
  | PBool b => bool_repr b
  | PNone => "None"
  | PDict items =>
      "{" ++ join ", "
               (map (fun kv : string * PyValue =>
                       let (k, x) := kv in str_repr k ++ ": " ++ repr x)
                    items) ++ "}"
  | PList elems => "[" ++ join ", " (map repr elems) ++ "]"
  end.

(** [str(v)]: a text is itself, every other value is its [repr]. *)
Definition str (v : PyValue) : string :=
  match v with
  | PStr s => s
  | _ => repr v
  end.

(** [f"{v}"], that is [format(v, "")]. *)
Definition fmt (v : PyValue) : string := str v.

(** The truth value tested by [if v:]. *)
Definition truthy (v : PyValue) : bool :=
  match v with
  | PStr s => PyStr.truthy s
  | PInt n => negb (n =? 0)
  | PFloat (FFinite r) => negb (String.eqb r "0.0" || String.eqb r "-0.0")
  | PFloat _ => true
  | PBool b => b
  | PNone => false
  | PDict items => match items with [] => false | _ => true end
  | PList elems => match elems with [] => false | _ => true end
  end.

(** Induction on values, with the members of an object and the elements of
    an array as induction hypotheses. *)
Section ValueInduction.
Variable P : PyValue -> Prop.
Hypothesis Hstr : forall s, P (PStr s).
Hypothesis Hint : forall n, P (PInt n).
Hypothesis Hfloat : forall f, P (PFloat f).
Hypothesis Hbool : forall b, P (PBool b).
Hypothesis Hnone : P PNone.
Hypothesis Hdict :
  forall items, Forall (fun kv => P (snd kv)) items -> P (PDict items).
Hypothesis Hlist : forall elems, Forall P elems -> P (PList elems).

Fixpoint PyValue_ind (v : PyValue) : P v :=
  match v with
  | PStr s => Hstr s
  | PInt n => Hint n
  | PFloat f => Hfloat f
  | PBool b => Hbool b
  | PNone => Hnone
  | PDict items =>
      Hdict items
        ((fix members (l : list (string * PyValue))
            : Forall (fun kv => P (snd kv)) l :=
            match l with
            | [] => Forall_nil _
            | kv :: rest => Forall_cons kv (PyValue_ind (snd kv)) (members rest)
            end) items)
  | PList elems =>
      Hlist elems
        ((fix elements (l : list PyValue) : Forall P l :=
            match l with
            | [] => Forall_nil _
            | x :: rest => Forall_cons x (PyValue_ind x) (elements rest)
            end) elems)
  end.
End ValueInduction.

End Py.

(** ** [json.dumps] with its default arguments *)

Module Json.
Import PyStr Py.

(** One character of a text under [ensure_ascii=True]. *)
Definition escape_char (c : ascii) : string :=
  let n := ord c in
  if Ascii.eqb c dquote then String backslash dq
  else if Ascii.eqb c backslash then String backslash bs
  else if (n =? 8)%nat then bs ++ "b"
  else if (n =? 9)%nat then bs ++ "t"
  else if (n =? 10)%nat then bs ++ "n"
  else if (n =? 12)%nat then bs ++ "f"
  else if (n =? 13)%nat then bs ++ "r"
  else if ((32 <=? n) && (n <=? 126))%nat then of_char c
  else bs ++ "u00" ++ hex2 n.

Fixpoint escape (s : string) : string :=
  match s with
  | EmptyString => EmptyString
  | String c r => escape_char c ++ escape r
  end.

Definition encode_str (s : string) : string := dq ++ escape s ++ dq.

Definition float_text (f : PyFloat) : string :=
  match f with
  | FFinite r => r
  | FNaN => "NaN"
  | FInf => "Infinity"
  | FNegInf => "-Infinity"
  end.

Fixpoint dumps (v : PyValue) : string :=
  match v with
  | PStr s => encode_str s
  | PInt n => int_str n
  | PFloat f => float_text f
  | PBool b => if b then "true" else "false"
  | PNone => "null"
  | PDict items =>
      "{" ++ join ", "
               (map (fun kv : string * PyValue =>
                       let (k, x) := kv in encode_str k ++ ": " ++ dumps x)
                    items) ++ "}"
  | PList elems => "[" ++ join ", " (map dumps elems) ++ "]"
  end.

(** [json.dumps(v, indent=2)], [level] containers deep. *)
Fixpoint dumps_indent (level : nat) (v : PyValue) : string :=
  let inner := nl ++ spaces (2 * S level) in
  let outer := nl ++ spaces (2 * level) in
  match v with
  | PDict items =>
      match items with
      | [] => "{}"
      | _ =>
          "{" ++ inner
          ++ join ("," ++ inner)
               (map (fun kv : string * PyValue =>
                       let (k, x) := kv in
                       encode_str k ++ ": " ++ dumps_indent (S level) x)
                    items)
          ++ outer ++ "}"
      end
  | PList elems =>
      match elems with
      | [] => "[]"
      | _ =>
          "[" ++ inner ++ join ("," ++ inner) (map (dumps_indent (S level)) elems)
          ++ outer ++ "]"
      end
  | _ => dumps v
  end.

End Json.

(** ** The regular expressions of [re] that [app.py] uses

    A backtracking matcher in continuation-passing style: [run r s k] tries
    [r] at the start of [s] and hands the rest of the text to [k], taking the
    alternatives in the order [re] does. *)

Module Regex.
Import PyStr.

Inductive regex : Type :=
| Lit (c : ascii)                 (* one given character *)
| LazyDot                         (* [.*?] under DOTALL *)
| GreedyNoneOf (cs : list ascii)  (* [[^cs]*] *)
| Eol                             (* [$] under MULTILINE *)
| Seq (r1 r2 : regex)
| Alt (r1 r2 : regex).

Fixpoint lazy_dot (s : string) (k : string -> option string) : option string :=
  match k s with
  | Some r => Some r
  | None =>
      match s with
      | EmptyString => None
      | String _ s' => lazy_dot s' k
      end
  end.

Fixpoint greedy_none_of (cs : list ascii) (s : string)
         (k : string -> option string) : option string :=
  match s with
  | EmptyString => k s
  | String c s' =>
      if existsb (Ascii.eqb c) cs then k s
      else match greedy_none_of cs s' k with
           | Some r => Some r
           | None => k s
           end
  end.

Fixpoint run (r : regex) (s : string) (k : string -> option string)
  : option string :=
  match r with
  | Lit c =>
      match s with
      | EmptyString => None
      | String a s' => if Ascii.eqb a c then k s' else None
      end
  | LazyDot => lazy_dot s k
  | GreedyNoneOf cs => greedy_none_of cs s k
  | Eol =>
      match s with
      | EmptyString => k s
      | String a _ => if Ascii.eqb a (chr 10) then k s else None
      end
  | Seq r1 r2 => run r1 s (fun s' => run r2 s' k)
  | Alt r1 r2 =>
      match run r1 s k with
      | Some x => Some x
      | None => run r2 s k
      end
  end.

Fixpoint take (n : nat) (s : string) : string :=
  match n, s with
  | S m, String c r => String c (take m r)
  | _, _ => EmptyString
  end.

Fixpoint drop (n : nat) (s : string) : string :=
  match n, s with
  | S m, String _ r => drop m r
  | _, _ => s
  end.

(** The text [r] matches at the start of [s], if it matches there. *)
Definition match_here (r : regex) (s : string) : option string :=
  match run r s Some with
  | Some rest => Some (take (String.length s - String.length rest) s)
  | None => None
  end.

(** A match of a pattern [(g1)|(g2)]: [group n] is [None] for the group
    that took no part in it. *)
Record Match : Type := mkMatch { group1 : option string; group2 : option string }.

Definition matched_text (m : Match) : string :=
  match group1 m, group2 m with
  | Some t, _ => t
  | None, Some t => t
  | None, None => ""
  end.

Definition match_groups (g1 g2 : regex) (s : string) : option Match :=
  match match_here g1 s with
  | Some t => Some (mkMatch (Some t) None)
  | None =>
      match match_here g2 s with
      | Some t => Some (mkMatch None (Some t))
      | None => None
      end
  end.

(** [re.sub]: the matches are sought from left to right, each one is
    replaced by [repl], and the search goes on after it.  [skip] counts the
    characters of the current match that are still to be passed over. *)
Fixpoint sub_from (g1 g2 : regex) (repl : Match -> string)
         (skip : nat) (s : string) : string :=
  match s with
  | EmptyString =>
      match match_groups g1 g2 s with
      | Some m => repl m
      | None => EmptyString
      end
  | String c s' =>
      match skip with
      | S n => sub_from g1 g2 repl n s'
      | O =>
          match match_groups g1 g2 s with
          | Some m =>
              match String.length (matched_text m) with
              | O => repl m ++ String c (sub_from g1 g2 repl O s')
              | S n => repl m ++ sub_from g1 g2 repl n s'
              end
          | None => String c (sub_from g1 g2 repl O s')
          end
      end
  end.

Definition sub (g1 g2 : regex) (repl : Match -> string) (s : string) : string :=
  sub_from g1 g2 repl O s.

End Regex.

(** ** Loops *)

Section Loops.
Context {A B : Type}.

(** [for x in l: acc = body(acc, x)] *)
Fixpoint for_each (body : B -> A -> B) (l : list A) (acc : B) : B :=
  match l with
  | [] => acc
  | x :: rest => for_each body rest (body acc x)
  end.

(** [for i, x in enumerate(l): acc = body(acc, i, x)], counting from [i]. *)
Fixpoint for_enumerate (body : B -> Z -> A -> B) (i : Z) (l : list A) (acc : B) : B :=
  match l with
  | [] => acc
  | x :: rest => for_enumerate body (i + 1) rest (body acc i x)
  end.
End Loops.

(** ** [app.py] *)

Module App.
Import PyStr Py Regex.

(** *** [remove_comments] *)

(** The first group of the pattern: a double-quoted or a single-quoted
    run, [\".*?\"|\'.*?\']. *)
Definition quoted_group : regex :=
  Alt (Seq (Lit dquote) (Seq LazyDot (Lit dquote)))
      (Seq (Lit squote) (Seq LazyDot (Lit squote))).

(** The second group: a block comment or a line comment,
    [/\*.*?\*/|//[^\r\n]*$]. *)
Definition comment_group : regex :=
  Alt (Seq (Lit "/") (Seq (Lit "*") (Seq LazyDot (Seq (Lit "*") (Lit "/")))))
      (Seq (Lit "/") (Seq (Lit "/") (Seq (GreedyNoneOf [chr 13; chr 10]) Eol))).

Definition _replacer (m : Match) : string :=
  match group2 m with
  | Some _ => ""
  | None =>
      match group1 m with
      | Some t => t
      | None => ""
      end
  end.

Definition remove_comments (json_string : string) : string :=
  sub quoted_group comment_group _replacer json_string.

(** *** [get_value_type] *)

Definition get_value_type (value : PyValue) : string :=
  if isinstance value Cstr then "string"
  else if isinstance_any value [Cint; Cfloat] then "number"
  else if isinstance value Cbool then "boolean"
  else if class_eqb (type_of value) CNoneType then "null"
  else if isinstance value Cdict then "object"
  else if isinstance value Clist then "array"
  else "unknown".

(** *** [render_json_tree] *)

(** The condition of both [highlight_class] lines:
    [search_term and search_term.lower() in str(data).lower()]. *)
Definition highlight_test (search_term : string) (data : PyValue) : bool :=
  PyStr.truthy search_term && contains (lower search_term) (lower (str data)).

Fixpoint render_json_tree (data : PyValue) (key search_term : string) (level : Z)
  : string :=
  let value_type := get_value_type data in
  if existsb (String.eqb value_type) ["object"; "array"] then
    let content := "<ul>" in
    let content :=
      if String.eqb value_type "object" then
        match data with
        | PDict items =>
            for_each
              (fun content (kv : string * PyValue) =>
                 let (k, v) := kv in
                 content ++ "<li>"
                   ++ render_json_tree v k search_term (level + 1) ++ "</li>")
              items content
        | _ => content  (* not reached: only a [dict] is an "object" *)
        end
      else
        match data with
        | PList elems =>
            for_enumerate
              (fun content i item =>
                 content ++ "<li>"
                   ++ render_json_tree item ("[" ++ int_str i ++ "]")
                        search_term (level + 1)
                   ++ "</li>")
              0 elems content
        | _ => content  (* not reached: only a [list] is an "array" *)
        end in
    let content := content ++ "</ul>" in
    let highlight_class :=
      if highlight_test search_term data then "json-highlight" else "" in
    let open_bracket := if String.eqb value_type "object" then "{" else "[" in
    let close_bracket := if String.eqb value_type "object" then "}" else "]" in
    nl ++ spaces 8 ++ "<div class=" ++ dq ++ "tree-node " ++ highlight_class ++ dq ++ ">"
    ++ nl ++ spaces 12 ++ "<details " ++ (if level <? 2 then "open" else "") ++ ">"
    ++ nl ++ spaces 16 ++ "<summary>"
    ++ nl ++ spaces 20 ++ "<span class=" ++ dq ++ "json-key" ++ dq ++ ">" ++ key
    ++ "</span><span class=" ++ dq ++ "bracket" ++ dq ++ ">" ++ open_bracket ++ "</span>"
    ++ nl ++ spaces 16 ++ "</summary>"
    ++ nl ++ spaces 16 ++ "<div class=" ++ dq ++ "tree-content" ++ dq ++ ">"
    ++ nl ++ spaces 20 ++ content
    ++ nl ++ spaces 16 ++ "</div>"
    ++ nl ++ spaces 12 ++ "</details>"
    ++ nl ++ spaces 12 ++ "<span class=" ++ dq ++ "bracket" ++ dq ++ ">" ++ close_bracket
    ++ "</span>"
    ++ nl ++ spaces 8 ++ "</div>"
    ++ nl ++ spaces 8
  else
    let highlight_class :=
      if highlight_test search_term data then "json-highlight" else "" in
    let value :=
      if String.eqb value_type "string" then
        "<span class=" ++ dq ++ "json-string" ++ dq ++ ">" ++ dq ++ fmt data ++ dq
        ++ "</span>"
      else if String.eqb value_type "number" then
        "<span class=" ++ dq ++ "json-number" ++ dq ++ ">" ++ fmt data ++ "</span>"
      else if String.eqb value_type "boolean" then
        "<span class=" ++ dq ++ "json-boolean" ++ dq ++ ">" ++ lower (str data)
        ++ "</span>"
      else if String.eqb value_type "null" then
        "<span class=" ++ dq ++ "json-null" ++ dq ++ ">null</span>"
      else str data in
    "<div class=" ++ dq ++ "tree-node " ++ highlight_class ++ dq ++ ">"
    ++ "<span class=" ++ dq ++ "json-key" ++ dq ++ ">" ++ key ++ "</span>: " ++ value
    ++ "</div>".

(** *** [search_json] *)

(** One entry of the result list, [{"path": ..., "key": ..., "value": ...}]. *)
Record SearchHit : Type := mkHit {
  hit_path : string;
  hit_key : string;
  hit_value : PyValue
}.

(** The two sides of the [or] on the line that decides a hit. *)
Definition key_test (term k : string) : bool :=
  contains (lower term) (lower k).

Definition value_test (term : string) (v : PyValue) : bool :=
  contains (lower term) (lower (Json.dumps v)).

Fixpoint search_json (data : PyValue) (term path : string) : list SearchHit :=
  let results : list SearchHit := [] in
  if isinstance data Cdict then
    match data with
    | PDict items =>
        for_each
          (fun results (kv : string * PyValue) =>
             let (k, v) := kv in
             let new_path := if PyStr.truthy path then path ++ "." ++ k else k in
             let results :=
               if key_test term k || value_test term v
               then (results ++ [mkHit new_path k v])%list
               else results in
             (results ++ search_json v term new_path)%list)
          items results
    | _ => results
    end
  else if isinstance data Clist then
    match data with
    | PList elems =>
        for_enumerate
          (fun results i item =>
             let new_path := path ++ "[" ++ int_str i ++ "]" in
             (results ++ search_json item term new_path)%list)
          0 elems results
    | _ => results
    end
  else results.

(** *** The page script

    What Streamlit is asked to show, call by call.  The captions are the
    bytes of the source file. *)

#[local] Unset Elimination Schemes.
Inductive StCall : Type :=
| st_title (body : string)
| st_header (body : string)
| st_error (body : string)
| st_success (body : string)
| st_info (body : string)
| st_write (body : string)
| st_json (body : PyValue)
| st_code (body : string)
| st_markdown (body : string)
| st_expander (label : string) (inside : list StCall).
#[local] Set Elimination Schemes.

Record Page : Type := mkPage {
  page_top : list StCall;
  left_column : list StCall;
  right_column : list StCall
}.

(** What the widgets return in one run of the script: the uploaded file
    (its name and its decoded content), the search box and the button. *)
Record Widgets : Type := mkWidgets {
  file_uploader : option (string * string);
  text_input : string;
  button : bool
}.

Section Script.

(** [json.loads]: the decoded value, or the text of the
    [JSONDecodeError] it raises. *)
Variable json_loads : string -> PyValue + string.

(** [parse_json_file], with the calls it makes to Streamlit. *)
Definition parse_json_file (file_content : string) : PyValue * list StCall :=
  let json_content := remove_comments file_content in
  match json_loads json_content with
  | inl v => (v, [])
  | inr e => (PNone, [st_error ("Invalid JSON file: " ++ e)])
  end.

(** The left column of [main]: its calls, and the local variables
    [json_data] and [search_term] it leaves behind ([None]: unbound). *)
Definition main_left (w : Widgets)
  : list StCall * option PyValue * option string :=
  let shown := [st_header "Upload and Search"] in
  match file_uploader w with
  | Some (name, file_content) =>
      let (json_data, errors) := parse_json_file file_content in
      let shown := (shown ++ errors)%list in
      if Py.truthy json_data then
        let shown :=
          (shown ++
           [st_success "✅ File uploaded and parsed successfully.";
            st_info ("📁 " ++ name ++ " ("
                     ++ int_str (Z.of_nat (String.length file_content))
                     ++ " bytes)")])%list in
        let search_term := text_input w in
        let shown :=
          if PyStr.truthy search_term then
            let search_results := search_json json_data search_term "" in
            let shown :=
              (shown ++
               [st_write ("Found "
                          ++ int_str (Z.of_nat (List.length search_results))
                          ++ " results:")])%list in
            for_each
              (fun shown result =>
                 (shown ++
                  [st_expander ("Path: " ++ hit_path result)
                     [st_write ("**Key:** " ++ hit_key result);
                      st_json (hit_value result)]])%list)
              search_results shown
          else shown in
        let shown :=
          if button w then
            (shown ++
             [st_code (Json.dumps_indent 0 json_data);
              st_success "✅ JSON copied to clipboard! (Use Ctrl+C to copy)"])%list
          else shown in
        (shown, Some json_data, Some search_term)
      else (shown, Some json_data, None)
  | None => (shown, None, None)
  end.

Definition main (w : Widgets) : Page :=
  let top := [st_title "JSON Tree Visualizer"] in
  let '(in_left, json_data, search_term) := main_left w in
  let in_right := [st_header "JSON Tree View"] in
  let in_right :=
    match json_data with
    | Some json_data =>
        let json_tree :=
          render_json_tree json_data "root"
            (match search_term with Some t => t | None => "" end) 0 in
        (in_right ++
         [st_markdown
            (nl ++ spaces 16 ++ "<div class=" ++ dq ++ "json-container" ++ dq ++ ">"
             ++ nl ++ spaces 20 ++ "<div class=" ++ dq ++ "tree" ++ dq ++ ">"
             ++ json_tree ++ "</div>"
             ++ nl ++ spaces 16 ++ "</div>"
             ++ nl ++ spaces 12)])%list
    | None =>
        (in_right ++ [st_info "Upload a JSON file to view the tree structure."])%list
    end in
  mkPage top in_left in_right.

End Script.

End App.

(** ** The tree a rendering shows

    [render_json_tree] returns markup.  The attributes the specification gives
    a tree node are read back from the markup of that node. *)

Module View.
Import PyStr Py App.

Fixpoint skip_blank (s : string) : string :=
  match s with
  | EmptyString => EmptyString
  | String c r =>
      if Ascii.eqb c " " || Ascii.eqb c (chr 10) then skip_blank r else s
  end.

Fixpoint strip_prefix (p s : string) : option string :=
  match p, s with
  | EmptyString, _ => Some s
  | String _ _, EmptyString => None
  | String a p', String b s' => if Ascii.eqb a b then strip_prefix p' s' else None
  end.

(** The text before the first [c], and the text after it. *)
Fixpoint until (c : ascii) (s : string) : option (string * string) :=
  match s with
  | EmptyString => None
  | String a r =>
      if Ascii.eqb a c then Some (EmptyString, r)
      else match until c r with
           | Some (t, rest) => Some (String a t, rest)
           | None => None
           end
  end.

(** The class that follows [tree-node] in the opening tag of a node, and
    the markup after the attribute. *)
Definition node_class (html : string) : option (string * string) :=
  match strip_prefix ("<div class=" ++ dq ++ "tree-node ") (skip_blank html) with
  | Some r => until dquote r
  | None => None
  end.

Definition isHighlighted (html : string) : bool :=
  match node_class html with
  | Some (c, _) => String.eqb c "json-highlight"
  | None => false
  end.

(** The attribute of the [<details>] tag that opens the node's body. *)
Definition details_attribute (html : string) : option string :=
  match node_class html with
  | Some (_, r) =>
      match strip_prefix ">" r with
      | Some r' =>
          match strip_prefix "<details " (skip_blank r') with
          | Some r'' => option_map fst (until ">" r'')
          | None => None
          end
      | None => None
      end
  | None => None
  end.

Definition isExpandedByDefault (html : string) : bool :=
  match details_attribute html with
  | Some a => String.eqb a "open"
  | None => false
  end.

Definition is_container (v : PyValue) : bool :=
  match v with
  | PDict _ | PList _ => true
  | _ => false
  end.

(** [tree_node root d label v]: the value [v] sits [d] levels below [root]
    and is shown under [label]. *)
Inductive tree_node (root : PyValue) : nat -> string -> PyValue -> Prop :=
| node_root : tree_node root 0 "root" root
| node_member d label items k v :
    tree_node root d label (PDict items) ->
    In (k, v) items ->
    tree_node root (S d) k v
| node_element d label elems i v :
    tree_node root d label (PList elems) ->
    nth_error elems i = Some v ->
    tree_node root (S d) ("[" ++ int_str (Z.of_nat i) ++ "]") v.

(** [part] occurs inside [whole]. *)
Definition occurs_in (part whole : string) : Prop :=
  exists before after, whole = before ++ part ++ after.

End View.

(** ** The search order, in the words of the specification *)

Module SearchSpec.
Import PyStr Py App.

(** The path of a member [k] of the object at [path], and of the element
    [i] of the array at [path]. *)
Definition member_path (path k : string) : string :=
  if PyStr.truthy path then path ++ "." ++ k else k.

Definition element_path (path : string) (i : Z) : string :=
  path ++ "[" ++ int_str i ++ "]".

(** Every key-value pair of every object below [data], in pre-order: a pair
    comes before the pairs inside its value, and the members of an object
    and the elements of an array come in their own order. *)
Fixpoint preorder_pairs (data : PyValue) (path : string) : list SearchHit :=
  match data with
  | PDict items =>
      flat_map
        (fun kv : string * PyValue =>
           let (k, v) := kv in
           mkHit (member_path path k) k v :: preorder_pairs v (member_path path k))
        items
  | PList elems =>
      (fix elements (i : Z) (l : list PyValue) : list SearchHit :=
         match l with
         | [] => []
         | x :: rest =>
             (preorder_pairs x (element_path path i) ++ elements (i + 1) rest)%list
         end) 0 elems
  | _ => []
  end.

(** The test of one pair: the term is in the key or in the value's text. *)
Definition pair_matches (term : string) (h : SearchHit) : bool :=
  key_test term (hit_key h) || value_test term (hit_value h).

(** The values whose [str] and [json.dumps] texts are the same once in
    lower case: integers, booleans, floats other than the infinities, the
    empty object, and arrays of such values. *)
Fixpoint same_text (v : PyValue) : bool :=
  match v with
  | PInt _ | PBool _ => true
  | PFloat (FFinite _) | PFloat FNaN => true
  | PList elems => forallb same_text elems
  | PDict items => match items with [] => true | _ :: _ => false end
  | _ => false
  end.

(** The hits one key-value pair of an object contributes: its own hit when it
  passes the test, then the hits found inside its value. *)
Definition member_hits (term path : string) (kv : string * PyValue)
: list SearchHit :=
let (k, v) := kv in
((if key_test term k || value_test term v
  then [mkHit (member_path path k) k v] else [])
 ++ search_json v term (member_path path k))%list.

(** The hits the elements of an array contribute, counting from [i]. *)
Fixpoint element_hits (term path : string) (i : Z) (l : list PyValue)
: list SearchHit :=
match l with
| [] => []
| x :: rest =>
    (search_json x term (element_path path i)
     ++ element_hits term path (i + 1) rest)%list
end.

End SearchSpec.

(** ** Documents and texts of the examples *)

Module Examples.
Import PyStr Py App.

(** [{"a": 1, "b": {"c": 2}}] *)
Definition object_a1_bc2 : PyValue :=
PDict [("a", PInt 1); ("b", PDict [("c", PInt 2)])].

(** [{"list": [10, 20]}] *)
Definition object_list_10_20 : PyValue :=
PDict [("list", PList [PInt 10; PInt 20])].

(** The text [{"a": "//not a comment"}]. *)
Definition plain_literal_text : string :=
"{" ++ dq ++ "a" ++ dq ++ ": " ++ dq ++ "//not a comment" ++ dq ++ "}".

(** The text [{"k": "a?b //not a comment"}] with a backslash and a double
    quote where the question mark stands. *)
Definition escaped_quote_text : string :=
"{" ++ dq ++ "k" ++ dq ++ ": " ++ dq ++ "a" ++ bs ++ dq ++ "b //not a comment"
++ dq ++ "}".

(** A decoder for the example: it accepts the text [null] and nothing else. *)
Definition loads_null_only (s : string) : PyValue + string :=
if String.eqb s "null" then inl PNone
else inr "Expecting value: line 1 column 1 (char 0)".

(** A decoder for the example: it accepts the text [[1, 2]] and nothing
    else. *)
Definition loads_one_two_only (s : string) : PyValue + string :=
  if String.eqb s "[1, 2]" then inl (PList [PInt 1; PInt 2])
  else inr "Expecting value: line 1 column 1 (char 0)".

(** [{"a": [{"b": 1}]}] *)
Definition three_levels : PyValue :=
  PDict [("a", PList [PDict [("b", PInt 1)]])].

End Examples.


(** * Properties *)

Import PyStr Py App View SearchSpec Examples.


(** ** The Python texts, on examples *)

Lemma python_text_examples :
  str (PDict [("a", PInt 1);
              ("it's", PList [PStr "x"; PNone; PBool true;
                              PStr (String (chr 160) (String (chr 173)
                                      (String (chr 200) (dq ++ sq))))])])
  = "{'a': 1, " ++ dq ++ "it's" ++ dq ++ ": ['x', None, True, '"
    ++ bs ++ "xa0" ++ bs ++ "xad" ++ of_char (chr 200) ++ dq ++ bs ++ "'']}" /\
  Json.dumps (PDict [("a", PInt (-1));
                     ("it's", PList [PStr "x"; PNone; PBool true;
                                     PStr (String (chr 200) (String "A"
                                             (String (chr 127) (of_char (chr 8)))))])])
  = "{" ++ dq ++ "a" ++ dq ++ ": -1, " ++ dq ++ "it's" ++ dq ++ ": ["
    ++ dq ++ "x" ++ dq ++ ", null, true, "
    ++ dq ++ bs ++ "u00c8A" ++ bs ++ "u007f" ++ bs ++ "b" ++ dq ++ "]}" /\
  lower (String (chr 200) (String (chr 215) (String (chr 222) "ABC xyz")))
  = String (chr 232) (String (chr 215) (String (chr 254) "abc xyz")) /\
  str (PList [PFloat FNaN; PFloat FNegInf; PFloat (FFinite "1.0")])
  = "[nan, -inf, 1.0]" /\
  Json.dumps (PList [PFloat FNaN; PFloat FInf; PFloat (FFinite "1.0")])
  = "[NaN, Infinity, 1.0]" /\
  Json.dumps_indent 0 (PDict [("a", PList [PInt 1; PDict []]); ("c", PList [])])
  = "{" ++ nl ++ "  " ++ dq ++ "a" ++ dq ++ ": [" ++ nl ++ "    1," ++ nl
    ++ "    {}" ++ nl ++ "  ]," ++ nl ++ "  " ++ dq ++ "c" ++ dq ++ ": []" ++ nl ++ "}".
Proof. repeat split. Qed.

(** ** Loops that only append *)

Section AppendingLoops.
Context {A B : Type}.

Lemma for_each_appends (body : list B -> A -> list B) (g : A -> list B) :
  (forall acc x, body acc x = (acc ++ g x)%list) ->
  forall l acc, for_each body l acc = (acc ++ flat_map g l)%list.
Proof.
  intros Hbody l; induction l as [|x rest IH]; intros acc; simpl.
  - now rewrite app_nil_r.
  - rewrite IH, Hbody, <- app_assoc. reflexivity.
Qed.

Lemma for_enumerate_appends (body : list B -> Z -> A -> list B)
      (g : Z -> A -> list B) (rest_of : Z -> list A -> list B) :
  (forall acc i x, body acc i x = (acc ++ g i x)%list) ->
  (forall i, rest_of i [] = []) ->
  (forall i x l, rest_of i (x :: l) = (g i x ++ rest_of (i + 1) l)%list) ->
  forall l i acc, for_enumerate body i l acc = (acc ++ rest_of i l)%list.
Proof.
  intros Hbody Hnil Hcons l; induction l as [|x rest IH]; intros i acc; simpl.
  - now rewrite Hnil, app_nil_r.
  - rewrite IH, Hbody, Hcons, <- app_assoc. reflexivity.
Qed.
End AppendingLoops.

(** ** The type classifier *)

(** The tags of the values that are not booleans. *)
Lemma get_value_type_variants :
  (forall s, get_value_type (PStr s) = "string") /\
  (forall n, get_value_type (PInt n) = "number") /\
  (forall f, get_value_type (PFloat f) = "number") /\
  get_value_type PNone = "null" /\
  (forall items, get_value_type (PDict items) = "object") /\
  (forall elems, get_value_type (PList elems) = "array").
Proof. repeat split. Qed.

(** C1.  The numeric test [isinstance(value, (int, float))] comes before the
    boolean test, and [bool] is a subclass of [int]: [True] and [False] are
    classified as "number", and the "boolean" branch is never taken. *)
Theorem get_value_type_bool_is_number :
  (forall b, get_value_type (PBool b) = "number") /\
  (forall v, get_value_type v <> "boolean").
Proof.
  split.
  - intros b. reflexivity.
  - intros v. destruct v; cbv; discriminate.
Qed.

(** ** The search engine *)

Lemma search_json_dict (items : list (string * PyValue)) (term path : string) :
  search_json (PDict items) term path = flat_map (member_hits term path) items.
Proof.
  cbn [search_json isinstance type_of issubclass class_eqb orb].
  rewrite for_each_appends with (g := member_hits term path).
  - reflexivity.
  - intros acc [k v]. unfold member_hits, member_path.
    destruct (key_test term k || value_test term v).
    + now rewrite <- app_assoc.
    + reflexivity.
Qed.

Lemma search_json_list (elems : list PyValue) (term path : string) :
  search_json (PList elems) term path = element_hits term path 0 elems.
Proof.
  cbn [search_json isinstance type_of issubclass class_eqb orb].
  rewrite for_enumerate_appends
    with (g := fun i x => search_json x term (element_path path i))
         (rest_of := element_hits term path);
    reflexivity.
Qed.

(** C5.  In an object, a pair is a hit exactly when the term, in lower case,
    is in the lower-case key or in the lower-case [json.dumps] text of the
    whole value; the search then goes into the value whether or not the pair
    was a hit.  For [{"a": 1, "b": {"c": 2}}] and the term "1" the one hit is
    at path "a". *)
Theorem search_json_object_pairs :
  (forall items term path,
      search_json (PDict items) term path
      = flat_map
          (fun kv : string * PyValue =>
             let (k, v) := kv in
             let new_path := if PyStr.truthy path then path ++ "." ++ k else k in
             ((if contains (lower term) (lower k)
                  || contains (lower term) (lower (Json.dumps v))
               then [mkHit new_path k v] else [])
              ++ search_json v term new_path)%list)
          items) /\
  search_json object_a1_bc2 "1" "" = [mkHit "a" "a" (PInt 1)].
Proof.
  split.
  - intros items term path. apply search_json_dict.
  - reflexivity.
Qed.

(** C10.  A root that is neither an object nor an array gives no hit,
    whatever the term. *)
Theorem search_json_leaf_root (data : PyValue) (term path : string) :
  is_container data = false -> search_json data term path = [].
Proof.
  destruct data; intros H; try reflexivity; discriminate H.
Qed.

Lemma search_json_leaf_root_witness :
  is_container (PStr "needle") = false /\
  value_test "needle" (PStr "needle") = true /\
  search_json (PStr "needle") "needle" "" = [].
Proof.
  split; [reflexivity | split; [reflexivity |]].
  apply (search_json_leaf_root (PStr "needle") "needle" ""). reflexivity.
Defined.

(** ** Texts *)

Lemma append_assoc (a b c : string) : (a ++ b) ++ c = a ++ (b ++ c).
Proof. induction a as [|x a IH]; simpl; [reflexivity | now rewrite IH]. Qed.

Lemma append_empty_r (a : string) : a ++ "" = a.
Proof. induction a as [|x a IH]; simpl; [reflexivity | now rewrite IH]. Qed.

Lemma length_append (a b : string) :
  String.length (a ++ b) = (String.length a + String.length b)%nat.
Proof. induction a as [|x a IH]; simpl; [reflexivity | now rewrite IH]. Qed.

Lemma truthy_nonempty (s : string) : PyStr.truthy s = true <-> s <> "".
Proof. destruct s; simpl; split; intros H; congruence. Qed.

(** ** Paths of the hits *)

Lemma member_path_longer (path k : string) :
  path <> "" ->
  (String.length path < String.length (member_path path k))%nat.
Proof.
  intros H. unfold member_path.
  destruct path as [|c p]; [congruence|].
  cbn [PyStr.truthy]. rewrite length_append. cbn [String.length append]. lia.
Qed.

Lemma element_path_longer (path : string) (i : Z) :
  (String.length path < String.length (element_path path i))%nat.
Proof.
  unfold element_path. rewrite length_append. cbn [String.length append]. lia.
Qed.

Lemma element_path_nonempty (path : string) (i : Z) : element_path path i <> "".
Proof.
  intros H. pose proof (element_path_longer path i) as L.
  rewrite H in L. simpl in L. lia.
Qed.

Lemma element_hits_in (term path : string) (h : SearchHit) :
  forall l i,
    In h (element_hits term path i l) ->
    exists j x,
      nth_error l j = Some x /\
      In h (search_json x term (element_path path (i + Z.of_nat j))).
Proof.
  induction l as [|y rest IH]; intros i Hin; simpl in Hin; [contradiction|].
  apply in_app_or in Hin. destruct Hin as [Hin | Hin].
  - exists 0%nat, y. split; [reflexivity|]. now rewrite Z.add_0_r.
  - destruct (IH _ Hin) as (j & x & Hj & Hx).
    exists (S j), x. split; [exact Hj|].
    replace (i + Z.of_nat (S j)) with (i + 1 + Z.of_nat j) by lia. exact Hx.
Qed.

(** Below a path that is not empty, every hit has a longer path. *)
Lemma hit_path_longer (data : PyValue) :
  forall term path h,
    path <> "" ->
    In h (search_json data term path) ->
    (String.length path < String.length (hit_path h))%nat.
Proof.
  induction data as [s|n|f|b| |items IH|elems IH] using PyValue_ind;
    intros term path h Hpath Hin; try contradiction.
  - rewrite search_json_dict in Hin. apply in_flat_map in Hin.
    destruct Hin as ([k v] & Hkv & Hin).
    rewrite Forall_forall in IH. specialize (IH _ Hkv). cbn [snd] in IH.
    pose proof (member_path_longer path k Hpath) as Hlt.
    unfold member_hits in Hin. apply in_app_or in Hin. destruct Hin as [Hin | Hin].
    + destruct (key_test term k || value_test term v); [|contradiction].
      destruct Hin as [<- | []]. exact Hlt.
    + assert (member_path path k <> "") as Hne
          by (intros E; rewrite E in Hlt; simpl in Hlt; lia).
      specialize (IH term _ h Hne Hin). lia.
  - rewrite search_json_list in Hin.
    destruct (element_hits_in _ _ _ _ _ Hin) as (j & x & Hj & Hx).
    rewrite Forall_forall in IH. specialize (IH x (nth_error_In _ _ Hj)).
    specialize (IH term _ h (element_path_nonempty _ _) Hx).
    pose proof (element_path_longer path (0 + Z.of_nat j)). lia.
Qed.

(** C2, as the specification has it: one hit, at "list[1]", with value 20.
    The search gives the pair "list" instead. *)
Lemma search_json_list_20_not_at_slot :
  ~ (exists h, search_json object_list_10_20 "20" "" = [h] /\
               hit_path h = "list[1]" /\ hit_value h = PInt 20).
Proof.
  intros (h & Hres & Hpath & _).
  assert (search_json object_list_10_20 "20" ""
          = [mkHit "list" "list" (PList [PInt 10; PInt 20])]) as E by reflexivity.
  rewrite E in Hres. injection Hres as <-. discriminate Hpath.
Qed.

(** C2, amended.  For [{"list": [10, 20]}] and the term "20" the one hit is
    the pair "list", whose value is the whole array.  An array slot is never
    a hit: every hit found in an array is found inside one of its elements,
    and its path is longer than the path of that slot. *)
Theorem search_json_array_slots :
  search_json object_list_10_20 "20" ""
  = [mkHit "list" "list" (PList [PInt 10; PInt 20])] /\
  (forall elems term path h,
      In h (search_json (PList elems) term path) ->
      exists i x,
        nth_error elems i = Some x /\
        In h (search_json x term (path ++ "[" ++ int_str (Z.of_nat i) ++ "]")) /\
        (String.length (path ++ "[" ++ int_str (Z.of_nat i) ++ "]")
         < String.length (hit_path h))%nat).
Proof.
  split; [reflexivity|].
  intros elems term path h Hin.
  rewrite search_json_list in Hin.
  destruct (element_hits_in _ _ _ _ _ Hin) as (j & x & Hj & Hx).
  cbn [Z.add] in Hx.
  exists j, x. split; [exact Hj | split; [exact Hx|]].
  exact (hit_path_longer x term _ h (element_path_nonempty _ _) Hx).
Qed.

Lemma search_json_array_slots_witness :
  exists i x,
    nth_error [PInt 20; PDict [("n", PInt 20)]] i = Some x /\
    In (mkHit "[1].n" "n" (PInt 20))
       (search_json x "20" ("" ++ "[" ++ int_str (Z.of_nat i) ++ "]")) /\
    (String.length ("" ++ "[" ++ int_str (Z.of_nat i) ++ "]")
     < String.length (hit_path (mkHit "[1].n" "n" (PInt 20))))%nat.
Proof.
  apply (proj2 search_json_array_slots
               [PInt 20; PDict [("n", PInt 20)]] "20" ""
               (mkHit "[1].n" "n" (PInt 20))).
  simpl. left. reflexivity.
Defined.

Lemma element_hits_app (term path : string) (l1 l2 : list PyValue) :
  forall i,
    element_hits term path i (l1 ++ l2)
    = (element_hits term path i l1
       ++ element_hits term path (i + Z.of_nat (List.length l1)) l2)%list.
Proof.
  induction l1 as [|x rest IH]; intros i.
  - cbn [app element_hits List.length Z.of_nat]. now rewrite Z.add_0_r.
  - cbn [app element_hits]. rewrite IH, <- app_assoc.
    replace (i + 1 + Z.of_nat (List.length rest))
      with (i + Z.of_nat (List.length (x :: rest)))
      by (cbn [List.length]; lia).
    reflexivity.
Qed.

Lemma search_json_filter_preorder (data : PyValue) :
  forall term path,
    search_json data term path
    = filter (pair_matches term) (preorder_pairs data path).
Proof.
  induction data as [s|n|f|b| |items IH|elems IH] using PyValue_ind;
    intros term path; try reflexivity.
  - rewrite search_json_dict. cbn [preorder_pairs].
    induction items as [|[k v] rest IHrest]; [reflexivity|].
    inversion IH as [|? ? Hv Hrest]; subst. cbn [snd] in Hv.
    cbn [flat_map]. rewrite filter_app, <- (IHrest Hrest).
    f_equal. unfold member_hits. cbn [filter app].
    unfold pair_matches at 1. cbn [hit_key hit_value].
    rewrite Hv. destruct (key_test term k || value_test term v); reflexivity.
  - rewrite search_json_list. cbn [preorder_pairs].
    generalize 0 as i.
    induction elems as [|x rest IHrest]; intros i; [reflexivity|].
    inversion IH as [|? ? Hx Hrest]; subst.
    cbn [element_hits]. rewrite filter_app, <- (IHrest Hrest), Hx. reflexivity.
Qed.

(** C6.  The hits are the pairs that pass the test, in the pre-order of the
    pairs: the result is the pre-order list of all pairs with the others left
    out, so it is a function of the value, the term and the path alone.  In an
    object, the hits of the members before a pair come first, then the pair's
    own hit, then the hits inside its value, then the hits of the members
    after it; in an array, the hits inside an element follow the hits of the
    elements before it. *)
Theorem search_json_preorder :
  (forall data term path,
      search_json data term path
      = filter (pair_matches term) (preorder_pairs data path)) /\
  (forall before k v after term path,
      search_json (PDict (before ++ (k, v) :: after)) term path
      = (search_json (PDict before) term path
         ++ (if pair_matches term (mkHit (member_path path k) k v)
             then [mkHit (member_path path k) k v] else [])
         ++ search_json v term (member_path path k)
         ++ search_json (PDict after) term path)%list) /\
  (forall before x term path,
      search_json (PList (before ++ [x])) term path
      = (search_json (PList before) term path
         ++ search_json x term
              (path ++ "[" ++ int_str (Z.of_nat (List.length before)) ++ "]"))%list).
Proof.
  split; [exact search_json_filter_preorder | split].
  - intros before k v after term path.
    rewrite !search_json_dict, flat_map_app. cbn [flat_map].
    unfold member_hits at 2. unfold pair_matches. cbn [hit_key hit_value].
    now rewrite <- !app_assoc.
  - intros before x term path.
    rewrite !search_json_list, element_hits_app.
    cbn [element_hits Z.add]. now rewrite app_nil_r.
Qed.

(** ** The tree renderer *)

Lemma occurs_in_refl (s : string) : occurs_in s s.
Proof. exists "", "". simpl. now rewrite append_empty_r. Qed.

Lemma occurs_in_append_l (p a b : string) : occurs_in p a -> occurs_in p (a ++ b).
Proof.
  intros (x & y & ->). exists x, (y ++ b). now rewrite !append_assoc.
Qed.

Lemma occurs_in_append_r (p a b : string) : occurs_in p b -> occurs_in p (a ++ b).
Proof.
  intros (x & y & ->). exists (a ++ x), y. now rewrite !append_assoc.
Qed.

Lemma occurs_in_trans (a b c : string) :
  occurs_in a b -> occurs_in b c -> occurs_in a c.
Proof.
  intros (x & y & ->) (x' & y' & ->).
  exists (x' ++ x), (y ++ y'). now rewrite !append_assoc.
Qed.

Ltac find_occurrence :=
  solve [ apply occurs_in_refl
        | apply occurs_in_append_l; find_occurrence
        | apply occurs_in_append_r; find_occurrence ].

Section TextLoops.
Context {A : Type}.

Lemma for_each_text (body : string -> A -> string) (g : A -> string) :
  (forall acc x, body acc x = acc ++ g x) ->
  forall l, exists tail, forall acc, for_each body l acc = acc ++ tail.
Proof.
  intros Hbody l; induction l as [|x rest [tail IH]].
  - exists "". intros acc. simpl. now rewrite append_empty_r.
  - exists (g x ++ tail). intros acc. simpl.
    now rewrite IH, Hbody, append_assoc.
Qed.

Lemma for_each_text_in (body : string -> A -> string) (g : A -> string) :
  (forall acc x, body acc x = acc ++ g x) ->
  forall l x, In x l ->
    exists a b, forall acc, for_each body l acc = acc ++ a ++ g x ++ b.
Proof.
  intros Hbody l; induction l as [|y rest IH]; intros x Hin; [contradiction|].
  destruct Hin as [-> | Hin].
  - destruct (for_each_text body g Hbody rest) as [tail Htail].
    exists "", tail. intros acc. simpl. now rewrite Htail, Hbody, append_assoc.
  - destruct (IH x Hin) as (a & b & Hab).
    exists (g y ++ a), b. intros acc. simpl.
    now rewrite Hab, Hbody, !append_assoc.
Qed.

Lemma for_enumerate_text (body : string -> Z -> A -> string) (g : Z -> A -> string) :
  (forall acc i x, body acc i x = acc ++ g i x) ->
  forall l i, exists tail, forall acc, for_enumerate body i l acc = acc ++ tail.
Proof.
  intros Hbody l; induction l as [|x rest IH]; intros i.
  - exists "". intros acc. simpl. now rewrite append_empty_r.
  - destruct (IH (i + 1)) as [tail Htail].
    exists (g i x ++ tail). intros acc. simpl.
    now rewrite Htail, Hbody, append_assoc.
Qed.

Lemma for_enumerate_text_nth (body : string -> Z -> A -> string)
      (g : Z -> A -> string) :
  (forall acc i x, body acc i x = acc ++ g i x) ->
  forall l j x i, nth_error l j = Some x ->
    exists a b, forall acc,
      for_enumerate body i l acc = acc ++ a ++ g (i + Z.of_nat j) x ++ b.
Proof.
  intros Hbody l; induction l as [|y rest IH]; intros j x i Hj.
  - destruct j; discriminate Hj.
  - destruct j as [|j]; simpl in Hj.
    + injection Hj as ->.
      destruct (for_enumerate_text body g Hbody rest (i + 1)) as [tail Htail].
      exists "", tail. intros acc. simpl.
      now rewrite Htail, Hbody, Z.add_0_r, append_assoc.
    + destruct (IH j x (i + 1) Hj) as (a & b & Hab).
      exists (g i y ++ a), b. intros acc. simpl.
      rewrite Hab, Hbody, !append_assoc.
      replace (i + 1 + Z.of_nat j) with (i + Z.pos (Pos.of_succ_nat j)) by lia.
      reflexivity.
Qed.
End TextLoops.

(** The markup of a member is inside the markup of its object. *)
Lemma render_member_inside items k v (key term : string) (level : Z) :
  In (k, v) items ->
  occurs_in (render_json_tree v k term (level + 1))
            (render_json_tree (PDict items) key term level).
Proof.
  intros Hin.
  cbn [render_json_tree get_value_type isinstance isinstance_any existsb type_of
       issubclass class_eqb orb String.eqb Ascii.eqb Bool.eqb].
  destruct (for_each_text_in
              (fun content (kv : string * PyValue) =>
                 let (k, v) := kv in
                 content ++ "<li>" ++ render_json_tree v k term (level + 1) ++ "</li>")
              (fun kv : string * PyValue =>
                 let (k, v) := kv in
                 "<li>" ++ render_json_tree v k term (level + 1) ++ "</li>")) 
    with (l := items) (x := (k, v)) as (a & b & Hab).
  - intros acc [k' v']. reflexivity.
  - exact Hin.
  - rewrite Hab. find_occurrence.
Qed.

(** The markup of an element is inside the markup of its array. *)
Lemma render_element_inside elems i v (key term : string) (level : Z) :
  nth_error elems i = Some v ->
  occurs_in (render_json_tree v ("[" ++ int_str (Z.of_nat i) ++ "]") term (level + 1))
            (render_json_tree (PList elems) key term level).
Proof.
  intros Hi.
  cbn [render_json_tree get_value_type isinstance isinstance_any existsb type_of
       issubclass class_eqb orb String.eqb Ascii.eqb Bool.eqb].
  destruct (for_enumerate_text_nth
              (fun content i item =>
                 content ++ "<li>"
                 ++ render_json_tree item ("[" ++ int_str i ++ "]") term (level + 1)
                 ++ "</li>")
              (fun i item =>
                 "<li>"
                 ++ render_json_tree item ("[" ++ int_str i ++ "]") term (level + 1)
                 ++ "</li>"))
    with (l := elems) (j := i) (x := v) (i := 0) as (a & b & Hab).
  - reflexivity.
  - exact Hi.
  - rewrite Hab. cbn [Z.add]. find_occurrence.
Qed.

(** Every node of the tree is rendered, with its depth as [level], inside
    the markup of the root. *)
Lemma tree_node_rendered (root : PyValue) (term : string) d label v :
  tree_node root d label v ->
  occurs_in (render_json_tree v label term (Z.of_nat d))
            (render_json_tree root "root" term 0).
Proof.
  induction 1 as [|d label items k v _ IH Hin|d label elems i v _ IH Hi].
  - apply occurs_in_refl.
  - eapply occurs_in_trans; [|exact IH].
    rewrite Nat2Z.inj_succ, <- Z.add_1_r. now apply render_member_inside.
  - eapply occurs_in_trans; [|exact IH].
    rewrite Nat2Z.inj_succ, <- Z.add_1_r. now apply render_element_inside.
Qed.

Lemma render_isHighlighted (data : PyValue) (key term : string) (level : Z) :
  isHighlighted (render_json_tree data key term level) = highlight_test term data.
Proof.
  destruct data;
    cbn [render_json_tree get_value_type isinstance isinstance_any existsb type_of
         issubclass class_eqb orb String.eqb Ascii.eqb Bool.eqb];
    destruct (highlight_test term _); reflexivity.
Qed.

Lemma render_isExpandedByDefault (data : PyValue) (key term : string) (level : Z) :
  is_container data = true ->
  isExpandedByDefault (render_json_tree data key term level) = (level <? 2).
Proof.
  destruct data; intros H; try discriminate H;
    cbn [render_json_tree get_value_type isinstance isinstance_any existsb type_of
         issubclass class_eqb orb String.eqb Ascii.eqb Bool.eqb];
    destruct (highlight_test term _); destruct (level <? 2); reflexivity.
Qed.

(** C3.  A node of the rendered tree is highlighted exactly when the term is
    not empty and, in lower case, occurs in the lower-case [str] text of the
    node's whole value; with an empty term no node is highlighted. *)
Theorem highlight_correct (root : PyValue) (term : string) d label v :
  tree_node root d label v ->
  let html := render_json_tree v label term (Z.of_nat d) in
  occurs_in html (render_json_tree root "root" term 0) /\
  (isHighlighted html = true
   <-> term <> "" /\ contains (lower term) (lower (str v)) = true) /\
  (term = "" -> isHighlighted html = false).
Proof.
  intros Hnode html. subst html. split; [now apply tree_node_rendered|].
  rewrite render_isHighlighted. unfold highlight_test. split.
  - rewrite andb_true_iff, truthy_nonempty. reflexivity.
  - intros ->. reflexivity.
Qed.

Lemma highlight_correct_witness :
  occurs_in (render_json_tree (PDict [("c", PInt 2)]) "b" "2" 1)
            (render_json_tree object_a1_bc2 "root" "2" 0) /\
  (isHighlighted (render_json_tree (PDict [("c", PInt 2)]) "b" "2" 1) = true
   <-> "2" <> "" /\
       contains (lower "2") (lower (str (PDict [("c", PInt 2)]))) = true) /\
  ("2" = "" ->
   isHighlighted (render_json_tree (PDict [("c", PInt 2)]) "b" "2" 1) = false).
Proof.
  apply (highlight_correct object_a1_bc2 "2" 1 "b" (PDict [("c", PInt 2)])).
  apply (node_member object_a1_bc2 0 "root"
                     [("a", PInt 1); ("b", PDict [("c", PInt 2)])]).
  - apply node_root.
  - simpl. right. left. reflexivity.
Defined.

(** C7.  A container [d] levels below the root is open by default exactly
    when [d < 2], whatever it holds and whatever the term. *)
Theorem default_expansion (root : PyValue) (term : string) d label v :
  tree_node root d label v ->
  is_container v = true ->
  let html := render_json_tree v label term (Z.of_nat d) in
  occurs_in html (render_json_tree root "root" term 0) /\
  (isExpandedByDefault html = true <-> (d < 2)%nat).
Proof.
  intros Hnode Hc html. subst html. split; [now apply tree_node_rendered|].
  rewrite (render_isExpandedByDefault _ _ _ _ Hc), Z.ltb_lt. lia.
Qed.

Lemma default_expansion_witness :
  occurs_in (render_json_tree (PDict [("b", PInt 1)]) "[0]" "b" 2)
            (render_json_tree three_levels "root" "b" 0) /\
  (isExpandedByDefault (render_json_tree (PDict [("b", PInt 1)]) "[0]" "b" 2) = true
   <-> (2 < 2)%nat).
Proof.
  apply (default_expansion three_levels "b" 2 "[0]" (PDict [("b", PInt 1)])).
  - apply (node_element three_levels 1 "a" [PDict [("b", PInt 1)]] 0).
    + apply (node_member three_levels 0 "root"
                         [("a", PList [PDict [("b", PInt 1)]])]).
      * apply node_root.
      * simpl. left. reflexivity.
    + reflexivity.
  - reflexivity.
Defined.

(** ** The two texts a term is looked up in *)

Lemma lower_append (a b : string) : lower (a ++ b) = lower a ++ lower b.
Proof. induction a as [|c a IH]; simpl; [reflexivity | now rewrite IH]. Qed.

Lemma same_text_repr (v : PyValue) : same_text v = true -> str v = repr v.
Proof. destruct v; intros H; try reflexivity; discriminate H. Qed.

Lemma same_text_lower_repr (v : PyValue) :
  same_text v = true -> lower (repr v) = lower (Json.dumps v).
Proof.
  induction v as [s|n|f|b| |items _|elems IH] using PyValue_ind;
    intros H; try discriminate H; try reflexivity.
  - destruct f; try discriminate H; reflexivity.
  - destruct b; reflexivity.
  - destruct items; [reflexivity | discriminate H].
  - cbn [repr Json.dumps]. rewrite !lower_append. do 2 f_equal.
    cbn [same_text] in H.
    induction elems as [|x rest IHrest]; [reflexivity|].
    inversion IH as [|? ? Hx Hrest]; subst.
    cbn [forallb] in H. apply andb_true_iff in H. destruct H as [Hsx Hsrest].
    specialize (IHrest Hrest Hsrest).
    destruct rest as [|y rest'].
    + cbn [map join]. now apply Hx.
    + change (map repr (x :: y :: rest'))
        with (repr x :: map repr (y :: rest')).
      change (map Json.dumps (x :: y :: rest'))
        with (Json.dumps x :: map Json.dumps (y :: rest')).
      cbn [map join] in *. rewrite !lower_append, (Hx Hsx). do 2 f_equal.
      exact IHrest.
Qed.

(** C4, as the specification has it: the two tests agree on every value and
    term.  For [None] the search looks in "null" and the renderer in "None". *)
Lemma search_and_highlight_differ :
  ~ (forall v term, value_test term v = highlight_test term v).
Proof.
  intros H. specialize (H PNone "null"). discriminate H.
Qed.

(** C4, amended.  The search looks the term up in the [json.dumps] text and
    the renderer in the [str] text; for a term that is not empty the two
    tests agree on the values whose two texts are the same in lower case:
    integers, booleans, floats other than the infinities, the empty object,
    and arrays of such values. *)
Theorem search_and_highlight_agree (v : PyValue) (term : string) :
  term <> "" -> same_text v = true -> value_test term v = highlight_test term v.
Proof.
  intros Hterm Hv. unfold value_test, highlight_test.
  apply truthy_nonempty in Hterm. rewrite Hterm. cbn [andb].
  now rewrite (same_text_repr v Hv), (same_text_lower_repr v Hv).
Qed.

Lemma search_and_highlight_agree_witness :
  "true" <> "" /\
  same_text (PList [PInt 10; PBool true]) = true /\
  value_test "true" (PList [PInt 10; PBool true]) = true /\
  value_test "true" (PList [PInt 10; PBool true])
  = highlight_test "true" (PList [PInt 10; PBool true]).
Proof.
  split; [discriminate | split; [reflexivity | split; [reflexivity|]]].
  apply (search_and_highlight_agree (PList [PInt 10; PBool true]) "true").
  - discriminate.
  - reflexivity.
Defined.

(** ** Comment stripping *)

Import Regex.

Lemma take_drop (k : nat) (s : string) :
  take k s ++ drop (String.length (take k s)) s = s.
Proof.
  revert s; induction k as [|k IH]; intros s.
  - destruct s; reflexivity.
  - destruct s as [|c r]; [reflexivity|]. simpl. now rewrite IH.
Qed.

(** The second group matches only where the text has "/*" or "//". *)
Lemma comment_group_needs_marker (s : string) :
  startswith "//" s = false ->
  startswith "/*" s = false ->
  match_here comment_group s = None.
Proof.
  destruct s as [|c [|c2 r]]; intros Hline Hblock.
  - reflexivity.
  - unfold match_here, comment_group. cbn [run].
    destruct (Ascii.eqb c "/"); reflexivity.
  - unfold match_here, comment_group. cbn [run].
    cbn [startswith andb] in Hline, Hblock.
    rewrite (Ascii.eqb_sym "/" c), (Ascii.eqb_sym "/" c2), andb_true_r in Hline.
    rewrite (Ascii.eqb_sym "/" c), (Ascii.eqb_sym "*" c2), andb_true_r in Hblock.
    destruct (Ascii.eqb c "/"); [|reflexivity].
    cbn [andb] in Hline, Hblock. rewrite Hline, Hblock. reflexivity.
Qed.

Lemma contains_tail (p : string) (c : ascii) (s : string) :
  contains p (String c s) = false ->
  startswith p (String c s) = false /\ contains p s = false.
Proof.
  cbn [contains]. intros H. now apply orb_false_iff in H.
Qed.

Lemma contains_start (p s : string) :
  contains p s = false -> startswith p s = false.
Proof.
  destruct s; cbn [contains]; intros H; now apply orb_false_iff in H.
Qed.

Lemma sub_from_without_markers (s : string) :
  contains "//" s = false ->
  contains "/*" s = false ->
  forall skip, sub_from quoted_group comment_group _replacer skip s = drop skip s.
Proof.
  induction s as [|c r IH]; intros Hline Hblock skip.
  - destruct skip; reflexivity.
  - destruct (contains_tail _ _ _ Hline) as [Hl0 Hl].
    destruct (contains_tail _ _ _ Hblock) as [Hb0 Hb].
    specialize (IH Hl Hb).
    destruct skip as [|n]; cbn [sub_from drop]; [|apply IH].
    unfold match_groups.
    rewrite (comment_group_needs_marker _ Hl0 Hb0).
    destruct (match_here quoted_group (String c r)) as [t|] eqn:Hq.
    + cbn [matched_text group1 group2 _replacer].
      assert (exists k, t = take k (String c r)) as [k ->].
      { unfold match_here in Hq.
        destruct (run quoted_group (String c r) Some) as [rest|];
          [|discriminate Hq].
        injection Hq as <-. eexists. reflexivity. }
      pose proof (take_drop k (String c r)) as Htd.
      destruct (String.length (take k (String c r))) as [|n] eqn:Hlen.
      * rewrite IH.
        destruct (take k (String c r)); [reflexivity | discriminate Hlen].
      * rewrite IH. exact Htd.
    + rewrite IH. reflexivity.
Qed.

(** X1.  A text in which neither "//" nor "/*" occurs comes back unchanged,
    whatever quotes and single slashes it holds. *)
Lemma remove_comments_without_markers (s : string) :
  contains "//" s = false ->
  contains "/*" s = false ->
  remove_comments s = s.
Proof.
  intros Hline Hblock. unfold remove_comments, sub.
  rewrite (sub_from_without_markers s Hline Hblock). destruct s; reflexivity.
Qed.

(** The literal of the specification's example, with no escaped quote
    before it, is kept. *)
Lemma remove_comments_plain_literal :
  remove_comments plain_literal_text = plain_literal_text.
Proof. reflexivity. Qed.

(** The pattern on some texts: a line comment before a line feed is removed;
    a line comment before a carriage return is not, since [$] stands only
    before a line feed or at the end; a block comment is removed; what
    stands between two apostrophes is kept. *)
Lemma remove_comments_examples :
  remove_comments ("[1, // one" ++ nl ++ "2]") = "[1, " ++ nl ++ "2]" /\
  remove_comments ("[1, // one" ++ cr ++ nl ++ "2]") = "[1, // one" ++ cr ++ nl ++ "2]" /\
  remove_comments "[1 /* one */, 2 /* two */]" = "[1 , 2 ]" /\
  remove_comments "['a//b'] // c" = "['a//b'] ".
Proof. repeat split. Qed.

(** C8.  [escaped_quote_text] is JSON without comments: an object whose
    member k is a text with an escaped double quote in it, followed by
    //not a comment.  The pattern ends the literal at the escaped quote, so
    the rest of the line is removed as a line comment and the literal is cut
    short. *)
Theorem remove_comments_escaped_quote :
  remove_comments escaped_quote_text
  = "{" ++ dq ++ "k" ++ dq ++ ": " ++ dq ++ "a" ++ bs ++ dq ++ "b " /\
  remove_comments escaped_quote_text <> escaped_quote_text.
Proof.
  split; [reflexivity|]. intros H. discriminate H.
Qed.

(** ** The page script *)

(** C9.  When [json.loads] raises on the stripped text, [parse_json_file]
    reports the error and returns [None]; the left column then skips the
    search, but the right column finds [json_data] bound and renders it: the
    page shows the tree of a document that is [null]. *)
Theorem main_renders_after_parse_failure
        (json_loads : string -> PyValue + string)
        (name text query e : string) (clicked : bool) :
  json_loads (remove_comments text) = inr e ->
  parse_json_file json_loads text = (PNone, [st_error ("Invalid JSON file: " ++ e)]) /\
  left_column (main json_loads (mkWidgets (Some (name, text)) query clicked))
  = [st_header "Upload and Search"; st_error ("Invalid JSON file: " ++ e)] /\
  right_column (main json_loads (mkWidgets (Some (name, text)) query clicked))
  = [st_header "JSON Tree View";
     st_markdown
       (nl ++ spaces 16 ++ "<div class=" ++ dq ++ "json-container" ++ dq ++ ">"
        ++ nl ++ spaces 20 ++ "<div class=" ++ dq ++ "tree" ++ dq ++ ">"
        ++ "<div class=" ++ dq ++ "tree-node " ++ dq ++ ">"
        ++ "<span class=" ++ dq ++ "json-key" ++ dq ++ ">root</span>: "
        ++ "<span class=" ++ dq ++ "json-null" ++ dq ++ ">null</span></div>"
        ++ "</div>"
        ++ nl ++ spaces 16 ++ "</div>"
        ++ nl ++ spaces 12)].
Proof.
  intros Hfail.
  assert (parse_json_file json_loads text
          = (PNone, [st_error ("Invalid JSON file: " ++ e)])) as Hparse
      by (unfold parse_json_file; now rewrite Hfail).
  split; [exact Hparse|].
  unfold main, main_left. cbn [file_uploader text_input button].
  rewrite Hparse. split; reflexivity.
Qed.

Lemma main_renders_after_parse_failure_witness :
  loads_null_only (remove_comments "// nothing here")
  = inr "Expecting value: line 1 column 1 (char 0)" /\
  left_column
    (main loads_null_only (mkWidgets (Some ("empty.json", "// nothing here")) "a" false))
  = [st_header "Upload and Search";
     st_error "Invalid JSON file: Expecting value: line 1 column 1 (char 0)"].
Proof.
  split; [reflexivity|].
  apply (main_renders_after_parse_failure
           loads_null_only "empty.json" "// nothing here" "a"
           "Expecting value: line 1 column 1 (char 0)" false).
  reflexivity.
Defined.

(** * Further properties of [app.py] *)

(** ** [remove_comments], piece by piece *)

Section Substitution.
Variables (g1 g2 : regex) (repl : Match -> string).

Lemma sub_from_skip (t r : string) :
  sub_from g1 g2 repl (String.length t) (t ++ r)
  = sub_from g1 g2 repl 0 r.
Proof.
  induction t as [|c t IH]; [reflexivity|].
  cbn [String.length append sub_from]. exact IH.
Qed.

(** A match that is not empty is replaced, and the search goes on behind it. *)
Lemma sub_from_match (t r : string) (m : Match) :
  t <> "" ->
  match_groups g1 g2 (t ++ r) = Some m ->
  matched_text m = t ->
  sub_from g1 g2 repl 0 (t ++ r) = repl m ++ sub_from g1 g2 repl 0 r.
Proof.
  intros Ht Hm Htext. destruct t as [|c t]; [congruence|].
  cbn [append] in *. cbn [sub_from]. rewrite Hm, Htext.
  cbn [String.length]. now rewrite sub_from_skip.
Qed.

(** Where nothing matches, the character is kept. *)
Lemma sub_from_no_match (c : ascii) (s : string) :
  match_groups g1 g2 (String c s) = None ->
  sub_from g1 g2 repl 0 (String c s) = String c (sub_from g1 g2 repl 0 s).
Proof. intros Hm. cbn [sub_from]. now rewrite Hm. Qed.
End Substitution.

Lemma take_all (t r : string) :
  take (String.length (t ++ r) - String.length r) (t ++ r) = t.
Proof.
  rewrite length_append, Nat.add_sub.
  induction t as [|c t IH]; cbn [String.length append take].
  - destruct r; reflexivity.
  - now rewrite IH.
Qed.

Lemma has_char_head (q c : ascii) (s : string) :
  has_char q (String c s) = false -> Ascii.eqb c q = false /\ has_char q s = false.
Proof. cbn [has_char]. intros H. now apply orb_false_iff in H. Qed.

(** [.*?] followed by the closing quote stops at the first such quote. *)
Lemma lazy_dot_to_quote (q : ascii) (body rest : string) :
  has_char q body = false ->
  lazy_dot (body ++ String q rest) (fun s' => run (Lit q) s' Some) = Some rest.
Proof.
  induction body as [|c b IH]; intros H.
  - cbn [append lazy_dot run]. now rewrite Ascii.eqb_refl.
  - destruct (has_char_head _ _ _ H) as [Hc Hb].
    cbn [append lazy_dot run]. rewrite Hc. now apply IH.
Qed.

Lemma quoted_group_matches (q : ascii) (body rest : string) :
  q = dquote \/ q = squote ->
  has_char q body = false ->
  match_groups quoted_group comment_group (String q (body ++ String q rest))
  = Some (mkMatch (Some (String q (body ++ of_char q))) None).
Proof.
  intros Hq Hbody. unfold match_groups, match_here.
  assert (run quoted_group (String q (body ++ String q rest)) Some = Some rest)
    as ->.
  { destruct Hq as [-> | ->]; unfold quoted_group; cbn [run];
      change (Ascii.eqb dquote dquote) with true;
      change (Ascii.eqb squote dquote) with false;
      change (Ascii.eqb squote squote) with true;
      cbv iota; now rewrite lazy_dot_to_quote. }
  do 3 f_equal.
  change (String q (body ++ String q rest))
    with (String q (body ++ (of_char q ++ rest))).
  rewrite <- append_assoc.
  exact (take_all (String q (body ++ of_char q)) rest).
Qed.

(** X3.  A run between two double quotes, or between two apostrophes, that
    has no such quote inside is kept as it is, whatever comment markers it
    holds, and the stripping goes on behind the closing quote. *)
Theorem remove_comments_quoted (q : ascii) (body rest : string) :
  q = dquote \/ q = squote ->
  has_char q body = false ->
  remove_comments (of_char q ++ body ++ of_char q ++ rest)
  = of_char q ++ body ++ of_char q ++ remove_comments rest.
Proof.
  intros Hq Hbody. unfold remove_comments, sub.
  change (of_char q ++ body ++ of_char q ++ rest)
    with (String q (body ++ (of_char q ++ rest))).
  rewrite <- append_assoc.
  change (String q ((body ++ of_char q) ++ rest))
    with (String q (body ++ of_char q) ++ rest).
  rewrite sub_from_match
    with (m := mkMatch (Some (String q (body ++ of_char q))) None).
  - cbn [_replacer group1 group2 append of_char]. now rewrite append_assoc.
  - discriminate.
  - cbn [append]. rewrite append_assoc. now apply quoted_group_matches.
  - reflexivity.
Qed.

Lemma remove_comments_quoted_witness :
  remove_comments (of_char dquote ++ "http://x /* y */" ++ of_char dquote ++ " // z")
  = of_char dquote ++ "http://x /* y */" ++ of_char dquote ++ remove_comments " // z".
Proof.
  apply (remove_comments_quoted dquote "http://x /* y */" " // z").
  - left. reflexivity.
  - reflexivity.
Defined.

(** [.*?] followed by the closing marker stops at the first one; a body
    without a slash cannot hold it. *)
Lemma lazy_dot_to_block_end (body rest : string) :
  has_char "/" body = false ->
  lazy_dot (body ++ "*/" ++ rest)
           (fun s' => run (Seq (Lit "*") (Lit "/")) s' Some)
  = Some rest.
Proof.
  induction body as [|c b IH]; intros H; [reflexivity|].
  destruct (has_char_head _ _ _ H) as [Hc Hb].
  cbn [append lazy_dot run].
  destruct (Ascii.eqb c "*"); [|now apply IH].
  destruct b as [|c2 b'].
  - cbn [append]. change (Ascii.eqb "*" "/") with false. cbv iota.
    now apply (IH Hb).
  - destruct (has_char_head _ _ _ Hb) as [Hc2 _].
    cbn [append]. rewrite Hc2. now apply (IH Hb).
Qed.

(** X4.  A block comment at the start of the text whose body has no slash is
    removed up to its closing marker, and the stripping goes on behind it. *)
Theorem remove_comments_block (body rest : string) :
  has_char "/" body = false ->
  remove_comments ("/*" ++ body ++ "*/" ++ rest) = remove_comments rest.
Proof.
  intros Hbody. unfold remove_comments, sub.
  replace ("/*" ++ body ++ "*/" ++ rest) with (("/*" ++ body ++ "*/") ++ rest)
    by (cbn [append]; now rewrite append_assoc).
  rewrite sub_from_match with (m := mkMatch None (Some ("/*" ++ body ++ "*/"))).
  - reflexivity.
  - discriminate.
  - unfold match_groups, match_here.
    assert (run quoted_group (("/*" ++ body ++ "*/") ++ rest) Some = None) as ->
        by reflexivity.
    assert (run comment_group (("/*" ++ body ++ "*/") ++ rest) Some = Some rest)
      as ->.
    { cbn [append]. rewrite append_assoc. unfold comment_group. cbn [run].
      change (Ascii.eqb "/" "/") with true. change (Ascii.eqb "*" "*") with true.
      cbv iota. now rewrite lazy_dot_to_block_end. }
    now rewrite take_all.
  - reflexivity.
Qed.

Lemma remove_comments_block_witness :
  remove_comments ("/*" ++ " a * b " ++ "*/" ++ "[1]") = remove_comments "[1]".
Proof.
  apply (remove_comments_block " a * b " "[1]"). reflexivity.
Defined.

(** [[^\r\n]*$] runs to the end of the line when a line feed or the end of
    the text follows, and fails before a carriage return. *)
Lemma greedy_to_line_feed (body rest : string) :
  has_char (chr 13) body = false ->
  has_char (chr 10) body = false ->
  greedy_none_of [chr 13; chr 10] (body ++ String (chr 10) rest)
                 (fun s' => run Eol s' Some)
  = Some (String (chr 10) rest).
Proof.
  induction body as [|c b IH]; intros Hcr Hlf; [reflexivity|].
  destruct (has_char_head _ _ _ Hcr) as [Hc1 Hb1].
  destruct (has_char_head _ _ _ Hlf) as [Hc2 Hb2].
  cbn [append greedy_none_of existsb]. rewrite Hc1, Hc2. cbn [orb].
  now rewrite (IH Hb1 Hb2).
Qed.

Lemma greedy_to_end (body : string) :
  has_char (chr 13) body = false ->
  has_char (chr 10) body = false ->
  greedy_none_of [chr 13; chr 10] body (fun s' => run Eol s' Some) = Some "".
Proof.
  induction body as [|c b IH]; intros Hcr Hlf; [reflexivity|].
  destruct (has_char_head _ _ _ Hcr) as [Hc1 Hb1].
  destruct (has_char_head _ _ _ Hlf) as [Hc2 Hb2].
  cbn [greedy_none_of existsb]. rewrite Hc1, Hc2. cbn [orb].
  now rewrite (IH Hb1 Hb2).
Qed.

Lemma greedy_to_carriage_return (body rest : string) :
  has_char (chr 13) body = false ->
  has_char (chr 10) body = false ->
  greedy_none_of [chr 13; chr 10] (body ++ String (chr 13) rest)
                 (fun s' => run Eol s' Some)
  = None.
Proof.
  induction body as [|c b IH]; intros Hcr Hlf; [reflexivity|].
  destruct (has_char_head _ _ _ Hcr) as [Hc1 Hb1].
  destruct (has_char_head _ _ _ Hlf) as [Hc2 Hb2].
  cbn [append greedy_none_of existsb]. rewrite Hc1, Hc2. cbn [orb].
  rewrite (IH Hb1 Hb2). cbn [run]. now rewrite Hc2.
Qed.

(** X5.  A line comment at the start of the text is removed up to the line
    feed that ends its line, which is kept, or up to the end of the text. *)
Theorem remove_comments_line (body rest : string) :
  has_char (chr 13) body = false ->
  has_char (chr 10) body = false ->
  remove_comments ("//" ++ body ++ nl ++ rest) = nl ++ remove_comments rest /\
  remove_comments ("//" ++ body) = "".
Proof.
  intros Hcr Hlf. unfold remove_comments, sub. split.
  - replace ("//" ++ body ++ nl ++ rest) with (("//" ++ body) ++ nl ++ rest)
      by (cbn [append]; reflexivity).
    rewrite sub_from_match with (m := mkMatch None (Some ("//" ++ body))).
    + reflexivity.
    + discriminate.
    + unfold match_groups, match_here.
      assert (run quoted_group (("//" ++ body) ++ nl ++ rest) Some = None) as ->
          by reflexivity.
      assert (run comment_group (("//" ++ body) ++ nl ++ rest) Some
              = Some (nl ++ rest)) as ->.
      { unfold comment_group. cbn [append run].
        change (Ascii.eqb "/" "/") with true. change (Ascii.eqb "/" "*") with false.
        cbv iota. exact (greedy_to_line_feed body rest Hcr Hlf). }
      now rewrite take_all.
    + reflexivity.
  - rewrite <- (append_empty_r ("//" ++ body)).
    rewrite sub_from_match with (m := mkMatch None (Some ("//" ++ body))).
    + reflexivity.
    + discriminate.
    + unfold match_groups, match_here.
      assert (run quoted_group (("//" ++ body) ++ "") Some = None) as ->
          by reflexivity.
      assert (run comment_group (("//" ++ body) ++ "") Some = Some "") as ->.
      { rewrite append_empty_r. unfold comment_group. cbn [append run].
        change (Ascii.eqb "/" "/") with true. change (Ascii.eqb "/" "*") with false.
        cbv iota. exact (greedy_to_end body Hcr Hlf). }
      now rewrite take_all.
    + reflexivity.
Qed.

Lemma remove_comments_line_witness :
  remove_comments ("//" ++ " it's a /* comment" ++ nl ++ "[1]")
  = nl ++ remove_comments "[1]" /\
  remove_comments ("//" ++ " it's a /* comment") = "".
Proof.
  apply (remove_comments_line " it's a /* comment" "[1]"); reflexivity.
Defined.

(** No match starts at a character that is neither a quote nor a slash. *)
Lemma plain_char_no_match (c : ascii) (s : string) :
  Ascii.eqb c dquote = false ->
  Ascii.eqb c squote = false ->
  Ascii.eqb c "/" = false ->
  match_groups quoted_group comment_group (String c s) = None.
Proof.
  intros Hd Hs Hsl. unfold match_groups, match_here, quoted_group, comment_group.
  cbn [run]. now rewrite Hd, Hs, Hsl.
Qed.

Lemma sub_from_plain_prefix (t r : string) :
  has_char dquote t = false ->
  has_char squote t = false ->
  has_char "/" t = false ->
  sub_from quoted_group comment_group _replacer 0 (t ++ r)
  = t ++ sub_from quoted_group comment_group _replacer 0 r.
Proof.
  induction t as [|c t IH]; intros Hd Hs Hsl; [reflexivity|].
  destruct (has_char_head _ _ _ Hd) as [Hd0 Hd1].
  destruct (has_char_head _ _ _ Hs) as [Hs0 Hs1].
  destruct (has_char_head _ _ _ Hsl) as [Hsl0 Hsl1].
  cbn [append]. rewrite sub_from_no_match by now apply plain_char_no_match.
  now rewrite IH.
Qed.

(** X6.  A line comment whose line ends with a carriage return is not
    removed: [$] stands only before a line feed or at the end of the text.
    For a body without quotes and slashes that does not begin with a star,
    the whole line is kept and the stripping goes on behind the carriage
    return. *)
Theorem remove_comments_line_carriage_return (body rest : string) :
  has_char (chr 13) body = false ->
  has_char (chr 10) body = false ->
  has_char dquote body = false ->
  has_char squote body = false ->
  has_char "/" body = false ->
  startswith "*" body = false ->
  remove_comments ("//" ++ body ++ cr ++ rest)
  = "//" ++ body ++ cr ++ remove_comments rest.
Proof.
  intros Hcr Hlf Hd Hs Hsl Hstar. unfold remove_comments, sub.
  cbn [append].
  rewrite sub_from_no_match.
  - f_equal. rewrite sub_from_no_match.
    + f_equal.
      replace (body ++ cr ++ rest) with ((body ++ cr) ++ rest)
        by now rewrite append_assoc.
      rewrite sub_from_plain_prefix.
      * now rewrite append_assoc.
      * clear -Hd. induction body as [|c b IH]; [reflexivity|].
        destruct (has_char_head _ _ _ Hd) as [H0 H1].
        cbn [append has_char]. now rewrite H0, IH.
      * clear -Hs. induction body as [|c b IH]; [reflexivity|].
        destruct (has_char_head _ _ _ Hs) as [H0 H1].
        cbn [append has_char]. now rewrite H0, IH.
      * clear -Hsl. induction body as [|c b IH]; [reflexivity|].
        destruct (has_char_head _ _ _ Hsl) as [H0 H1].
        cbn [append has_char]. now rewrite H0, IH.
    + unfold match_groups.
      assert (match_here quoted_group (String "/" (body ++ cr ++ rest)) = None)
        as -> by reflexivity.
      rewrite comment_group_needs_marker; [reflexivity| |].
      * destruct body as [|c b]; [reflexivity|].
        destruct (has_char_head _ _ _ Hsl) as [H0 _].
        cbn [append startswith]. rewrite (Ascii.eqb_sym "/" c), H0.
        now rewrite andb_false_r.
      * destruct body as [|c b]; [reflexivity|].
        cbn [startswith] in Hstar. rewrite andb_true_r in Hstar.
        cbn [append startswith]. rewrite Hstar. now rewrite andb_false_r.
  - unfold match_groups, match_here.
    assert (run quoted_group (String "/" (String "/" (body ++ cr ++ rest))) Some
            = None) as -> by reflexivity.
    assert (run comment_group (String "/" (String "/" (body ++ cr ++ rest))) Some
            = None) as ->; [|reflexivity].
    unfold comment_group. cbn [run].
    change (Ascii.eqb "/" "/") with true. change (Ascii.eqb "/" "*") with false.
    cbv iota. exact (greedy_to_carriage_return body rest Hcr Hlf).
Qed.

Lemma remove_comments_line_carriage_return_witness :
  remove_comments ("//" ++ " one" ++ cr ++ nl ++ "[1]")
  = "//" ++ " one" ++ cr ++ remove_comments (nl ++ "[1]").
Proof.
  apply (remove_comments_line_carriage_return " one" (nl ++ "[1]")); reflexivity.
Defined.

Lemma length_take (k : nat) (s : string) :
  (String.length (take k s) <= String.length s)%nat.
Proof.
  revert s; induction k as [|k IH]; intros [|c r]; cbn [take String.length]; try lia.
  specialize (IH r). lia.
Qed.

(** A match is a prefix of the text, and it is replaced by itself or by
    nothing. *)
Lemma match_groups_shape (s : string) (m : Match) :
  match_groups quoted_group comment_group s = Some m ->
  (exists k, matched_text m = take k s) /\
  (_replacer m = "" \/ _replacer m = matched_text m).
Proof.
  unfold match_groups, match_here. intros H.
  destruct (run quoted_group s Some) as [r1|].
  - injection H as <-. split; [eexists; reflexivity | right; reflexivity].
  - destruct (run comment_group s Some) as [r2|]; [|discriminate H].
    injection H as <-. split; [eexists; reflexivity | left; reflexivity].
Qed.

Lemma sub_from_length (s : string) :
  forall skip,
    (String.length (sub_from quoted_group comment_group _replacer skip s)
     <= String.length s - skip)%nat.
Proof.
  induction s as [|c r IH]; intros skip.
  - cbn. lia.
  - destruct skip as [|n]; cbn [sub_from].
    + destruct (match_groups quoted_group comment_group (String c r)) as [m|] eqn:Hm.
      * destruct (match_groups_shape _ _ Hm) as [[k Hk] Hrepl].
        pose proof (length_take k (String c r)) as Hlen. rewrite <- Hk in Hlen.
        assert (String.length (_replacer m) <= String.length (matched_text m))%nat
          as Hr by (destruct Hrepl as [-> | ->]; cbn; lia).
        destruct (String.length (matched_text m)) as [|n] eqn:Hn;
          rewrite length_append.
        -- cbn [String.length] in *. specialize (IH 0%nat). lia.
        -- cbn [String.length] in *. specialize (IH n). lia.
      * cbn [String.length]. specialize (IH 0%nat). lia.
    + cbn [String.length]. specialize (IH n). lia.
Qed.

(** X2.  Stripping adds nothing: the result is never longer than the
    text. *)
Theorem remove_comments_length (s : string) :
  (String.length (remove_comments s) <= String.length s)%nat.
Proof.
  unfold remove_comments, sub. pose proof (sub_from_length s 0). lia.
Qed.

Lemma remove_comments_without_markers_witness :
  contains "//" ("{'a': " ++ dq ++ "b/c" ++ dq ++ ", 'd': 6 / 3 * 2}") = false /\
  remove_comments ("{'a': " ++ dq ++ "b/c" ++ dq ++ ", 'd': 6 / 3 * 2}")
  = "{'a': " ++ dq ++ "b/c" ++ dq ++ ", 'd': 6 / 3 * 2}".
Proof.
  split; [reflexivity|].
  apply (remove_comments_without_markers
           ("{'a': " ++ dq ++ "b/c" ++ dq ++ ", 'd': 6 / 3 * 2}"));
    reflexivity.
Defined.

(** ** [get_value_type] *)

(** X7.  The classifier answers with one of five tags: "unknown" and
    "boolean" are never returned for a decoded document, and the tag is
    "object" or "array" exactly for the containers, which is the test the
    renderer branches on. *)
Theorem get_value_type_range (v : PyValue) :
  In (get_value_type v) ["string"; "number"; "null"; "object"; "array"] /\
  existsb (String.eqb (get_value_type v)) ["object"; "array"] = is_container v /\
  (get_value_type v = "object" <-> exists items, v = PDict items) /\
  (get_value_type v = "array" <-> exists elems, v = PList elems).
Proof.
  destruct v; cbn; (split; [tauto|]); (split; [reflexivity|]);
    split; split; try discriminate; try (intros [x Hx]; discriminate Hx);
    intros _; eexists; reflexivity.
Qed.

(** ** [render_json_tree]: what the markup depends on *)

Section LoopExtensionality.
Context {A B : Type}.

Lemma for_each_ext (b1 b2 : B -> A -> B) (l : list A) :
  (forall acc x, In x l -> b1 acc x = b2 acc x) ->
  forall acc, for_each b1 l acc = for_each b2 l acc.
Proof.
  induction l as [|x rest IH]; intros H acc; [reflexivity|].
  cbn [for_each]. rewrite (H acc x (or_introl eq_refl)).
  apply IH. intros acc' y Hy. apply H. now right.
Qed.

Lemma for_enumerate_ext (b1 b2 : B -> Z -> A -> B) (l : list A) :
  (forall acc i x, In x l -> b1 acc i x = b2 acc i x) ->
  forall i acc, for_enumerate b1 i l acc = for_enumerate b2 i l acc.
Proof.
  induction l as [|x rest IH]; intros H i acc; [reflexivity|].
  cbn [for_enumerate]. rewrite (H acc i x (or_introl eq_refl)).
  apply IH. intros acc' j y Hy. apply H. now right.
Qed.
End LoopExtensionality.

(** The markup is the same for two terms that highlight the same values and
    two levels that are equal or both at least 2. *)
Lemma render_congruence (v : PyValue) :
  forall key t1 t2 l1 l2,
    (forall x, highlight_test t1 x = highlight_test t2 x) ->
    l1 = l2 \/ (2 <= l1 /\ 2 <= l2) ->
    render_json_tree v key t1 l1 = render_json_tree v key t2 l2.
Proof.
  induction v as [s|n|f|b| |items IH|elems IH] using PyValue_ind;
    intros key t1 t2 l1 l2 Hh Hl;
    cbn [render_json_tree get_value_type isinstance isinstance_any existsb type_of
         issubclass class_eqb orb String.eqb Ascii.eqb Bool.eqb];
    rewrite Hh; try reflexivity.
  - assert ((l1 <? 2) = (l2 <? 2)) as ->.
    { destruct Hl as [-> | [H1 H2]]; [reflexivity|].
      rewrite (proj2 (Z.ltb_ge l1 2) H1), (proj2 (Z.ltb_ge l2 2) H2). reflexivity. }
    rewrite (for_each_ext
               (fun content (kv : string * PyValue) =>
                  let (k, v) := kv in
                  content ++ "<li>" ++ render_json_tree v k t1 (l1 + 1) ++ "</li>")
               (fun content (kv : string * PyValue) =>
                  let (k, v) := kv in
                  content ++ "<li>" ++ render_json_tree v k t2 (l2 + 1) ++ "</li>")).
    + reflexivity.
    + intros acc [k v] Hin. rewrite Forall_forall in IH.
      pose proof (IH (k, v) Hin) as Hv. cbn [snd] in Hv.
      rewrite (Hv k t1 t2 (l1 + 1) (l2 + 1) Hh); [reflexivity|].
      destruct Hl as [-> | [H1 H2]]; [left; reflexivity | right; lia].
  - assert ((l1 <? 2) = (l2 <? 2)) as ->.
    { destruct Hl as [-> | [H1 H2]]; [reflexivity|].
      rewrite (proj2 (Z.ltb_ge l1 2) H1), (proj2 (Z.ltb_ge l2 2) H2). reflexivity. }
    rewrite (for_enumerate_ext
               (fun content i item =>
                  content ++ "<li>"
                  ++ render_json_tree item ("[" ++ int_str i ++ "]") t1 (l1 + 1)
                  ++ "</li>")
               (fun content i item =>
                  content ++ "<li>"
                  ++ render_json_tree item ("[" ++ int_str i ++ "]") t2 (l2 + 1)
                  ++ "</li>")).
    + reflexivity.
    + intros acc i x Hin. rewrite Forall_forall in IH.
      rewrite (IH x Hin _ t1 t2 (l1 + 1) (l2 + 1) Hh); [reflexivity|].
      destruct Hl as [-> | [H1 H2]]; [left; reflexivity | right; lia].
Qed.

(** X8.  From the third level on the markup of a value does not depend on
    the level: only the first two levels are open by default, and the level
    is used for nothing else. *)
Theorem render_json_tree_deep_levels (v : PyValue) (key term : string) (l1 l2 : Z) :
  2 <= l1 -> 2 <= l2 ->
  render_json_tree v key term l1 = render_json_tree v key term l2.
Proof.
  intros H1 H2. apply render_congruence; [reflexivity | right; split; assumption].
Qed.

Lemma render_json_tree_deep_levels_witness :
  render_json_tree three_levels "root" "b" 2 = render_json_tree three_levels "root" "b" 7.
Proof.
  apply (render_json_tree_deep_levels three_levels "root" "b" 2 7); lia.
Defined.

Lemma lower_truthy (t1 t2 : string) :
  lower t1 = lower t2 -> PyStr.truthy t1 = PyStr.truthy t2.
Proof. destruct t1, t2; intros H; try reflexivity; discriminate H. Qed.

(** X9.  The renderer does not tell the case of the search term: two terms
    with the same lower-case form give the same markup. *)
Theorem render_json_tree_term_case (v : PyValue) (key t1 t2 : string) (level : Z) :
  lower t1 = lower t2 ->
  render_json_tree v key t1 level = render_json_tree v key t2 level.
Proof.
  intros H. apply render_congruence; [|left; reflexivity].
  intros x. unfold highlight_test. now rewrite H, (lower_truthy t1 t2 H).
Qed.

Lemma render_json_tree_term_case_witness :
  render_json_tree object_a1_bc2 "root" "B" 0
  = render_json_tree object_a1_bc2 "root" "b" 0.
Proof.
  apply (render_json_tree_term_case object_a1_bc2 "root" "B" "b" 0). reflexivity.
Defined.

(** ** Texts inside texts *)

Lemma startswith_append (p r : string) : startswith p (p ++ r) = true.
Proof.
  induction p as [|c p IH]; [reflexivity|].
  cbn [append startswith]. now rewrite Ascii.eqb_refl, IH.
Qed.

Lemma startswith_split (p s : string) :
  startswith p s = true -> exists r, s = p ++ r.
Proof.
  revert s; induction p as [|c p IH]; intros s H.
  - exists s. reflexivity.
  - destruct s as [|a s]; [discriminate H|].
    cbn [startswith] in H. apply andb_true_iff in H. destruct H as [Hc Hp].
    apply Ascii.eqb_eq in Hc. subst a.
    destruct (IH s Hp) as [r ->]. exists r. reflexivity.
Qed.

(** [needle in hay] says that [needle] occurs in [hay]. *)
Lemma contains_occurs (needle hay : string) :
  contains needle hay = true <-> occurs_in needle hay.
Proof.
  split.
  - induction hay as [|c h IH]; cbn [contains]; intros H.
    + rewrite orb_false_r in H. destruct (startswith_split _ _ H) as [r ->].
      exists "", r. reflexivity.
    + apply orb_true_iff in H. destruct H as [H | H].
      * destruct (startswith_split _ _ H) as [r ->]. exists "", r. reflexivity.
      * destruct (IH H) as (x & y & ->). exists (String c x), y. reflexivity.
  - intros (x & y & ->). induction x as [|c x IH].
    + cbn [append]. destruct (needle ++ y) eqn:E; cbn [contains];
        rewrite <- E, startswith_append; reflexivity.
    + cbn [append contains]. rewrite IH. apply orb_true_r.
Qed.

Lemma occurs_in_lower (a b : string) :
  occurs_in a b -> occurs_in (lower a) (lower b).
Proof.
  intros (x & y & ->). exists (lower x), (lower y). now rewrite !lower_append.
Qed.

(** A term found in a text is found in every text that text occurs in. *)
Lemma contains_inside (t a b : string) :
  contains (lower t) (lower a) = true ->
  occurs_in a b ->
  contains (lower t) (lower b) = true.
Proof.
  intros H Hab. apply contains_occurs. apply contains_occurs in H.
  eapply occurs_in_trans; [exact H | now apply occurs_in_lower].
Qed.

Lemma join_occurs (sep p : string) (parts : list string) :
  In p parts -> occurs_in p (join sep parts).
Proof.
  induction parts as [|x rest IH]; intros Hin; [contradiction|].
  destruct rest as [|y rest'].
  - destruct Hin as [-> | []]. apply occurs_in_refl.
  - change (join sep (x :: y :: rest')) with (x ++ sep ++ join sep (y :: rest')).
    destruct Hin as [-> | Hin].
    + apply occurs_in_append_l, occurs_in_refl.
    + apply occurs_in_append_r, occurs_in_append_r, IH, Hin.
Qed.

Lemma repr_member_inside (items : list (string * PyValue)) (k : string) (v : PyValue) :
  In (k, v) items -> occurs_in (repr v) (repr (PDict items)).
Proof.
  intros Hin. cbn [repr].
  apply occurs_in_append_r, occurs_in_append_l.
  pose proof (in_map (fun kv : string * PyValue =>
                        let (k, x) := kv in str_repr k ++ ": " ++ repr x)
                     _ _ Hin) as Hm.
  cbn beta iota in Hm.
  eapply occurs_in_trans; [|apply join_occurs, Hm]. find_occurrence.
Qed.

Lemma repr_element_inside (elems : list PyValue) (v : PyValue) :
  In v elems -> occurs_in (repr v) (repr (PList elems)).
Proof.
  intros Hin. cbn [repr].
  apply occurs_in_append_r, occurs_in_append_l, join_occurs, in_map, Hin.
Qed.

Lemma dumps_member_inside (items : list (string * PyValue)) (k : string) (v : PyValue) :
  In (k, v) items -> occurs_in (Json.dumps v) (Json.dumps (PDict items)).
Proof.
  intros Hin. cbn [Json.dumps].
  apply occurs_in_append_r, occurs_in_append_l.
  pose proof (in_map (fun kv : string * PyValue =>
                        let (k, x) := kv in
                        Json.encode_str k ++ ": " ++ Json.dumps x)
                     _ _ Hin) as Hm.
  cbn beta iota in Hm.
  eapply occurs_in_trans; [|apply join_occurs, Hm]. find_occurrence.
Qed.

Lemma dumps_element_inside (elems : list PyValue) (v : PyValue) :
  In v elems -> occurs_in (Json.dumps v) (Json.dumps (PList elems)).
Proof.
  intros Hin. cbn [Json.dumps].
  apply occurs_in_append_r, occurs_in_append_l, join_occurs, in_map, Hin.
Qed.

Lemma tree_node_repr_inside (root : PyValue) d label v :
  tree_node root d label v -> occurs_in (repr v) (repr root).
Proof.
  induction 1 as [|d label items k v _ IH Hin|d label elems i v _ IH Hi].
  - apply occurs_in_refl.
  - eapply occurs_in_trans; [|exact IH]. now apply repr_member_inside with (k := k).
  - eapply occurs_in_trans; [|exact IH].
    apply repr_element_inside. now apply nth_error_In with (n := i).
Qed.

Lemma tree_node_dumps_inside (root : PyValue) d label v :
  tree_node root d label v -> occurs_in (Json.dumps v) (Json.dumps root).
Proof.
  induction 1 as [|d label items k v _ IH Hin|d label elems i v _ IH Hi].
  - apply occurs_in_refl.
  - eapply occurs_in_trans; [|exact IH]. now apply dumps_member_inside with (k := k).
  - eapply occurs_in_trans; [|exact IH].
    apply dumps_element_inside. now apply nth_error_In with (n := i).
Qed.

(** A root with a node below it is a container. *)
Lemma tree_node_below_container (root : PyValue) d label v :
  tree_node root d label v -> d <> 0%nat -> is_container root = true.
Proof.
  induction 1 as [|d label items k v Hparent IH Hin|d label elems i v Hparent IH Hi];
    intros Hd; [congruence| |].
  - destruct d as [|d]; [|apply IH; discriminate].
    inversion Hparent; subst. reflexivity.
  - destruct d as [|d]; [|apply IH; discriminate].
    inversion Hparent; subst. reflexivity.
Qed.

Lemma container_str (v : PyValue) : is_container v = true -> str v = repr v.
Proof. destruct v; intros H; try discriminate H; reflexivity. Qed.

(** X10.  The highlight goes up the tree: when a node that is not a text is
    highlighted, the root, and so every node above it, is highlighted too. *)
Theorem highlight_goes_up (root : PyValue) (term : string) d label v :
  tree_node root d label v ->
  (forall s, v <> PStr s) ->
  isHighlighted (render_json_tree v label term (Z.of_nat d)) = true ->
  isHighlighted (render_json_tree root "root" term 0) = true.
Proof.
  intros Hnode Hv. rewrite !render_isHighlighted. unfold highlight_test.
  intros H. apply andb_true_iff in H. destruct H as [Ht Hc].
  rewrite Ht. cbn [andb].
  destruct d as [|d].
  - inversion Hnode; subst. exact Hc.
  - rewrite (container_str root (tree_node_below_container _ _ _ _ Hnode
                                   (Nat.neq_succ_0 d))).
    apply contains_inside with (a := repr v).
    + destruct v; try exact Hc. exfalso. now apply (Hv s).
    + exact (tree_node_repr_inside _ _ _ _ Hnode).
Qed.

Lemma highlight_goes_up_witness :
  isHighlighted (render_json_tree (PInt 1) "b" "1" 3) = true /\
  isHighlighted (render_json_tree three_levels "root" "1" 0) = true.
Proof.
  split; [reflexivity|].
  apply (highlight_goes_up three_levels "1" 3 "b" (PInt 1)).
  - apply (node_member three_levels 2 "[0]" [("b", PInt 1)]).
    + apply (node_element three_levels 1 "a" [PDict [("b", PInt 1)]] 0).
      * apply (node_member three_levels 0 "root"
                           [("a", PList [PDict [("b", PInt 1)]])]).
        -- apply node_root.
        -- simpl. left. reflexivity.
      * reflexivity.
    + simpl. left. reflexivity.
  - intros s. discriminate.
  - reflexivity.
Defined.

(** X12.  Nothing is escaped: for every text leaf of the document, the span
    of its label followed by the span of its text, between double quotes, is
    in the markup of the root exactly as the document has them. *)
Theorem render_json_tree_text_verbatim (root : PyValue) (term : string) d label s :
  tree_node root d label (PStr s) ->
  occurs_in
    ("<span class=" ++ dq ++ "json-key" ++ dq ++ ">" ++ label ++ "</span>: "
     ++ "<span class=" ++ dq ++ "json-string" ++ dq ++ ">" ++ dq ++ s ++ dq
     ++ "</span>")
    (render_json_tree root "root" term 0).
Proof.
  intros Hnode.
  eapply occurs_in_trans; [|exact (tree_node_rendered root term _ _ _ Hnode)].
  cbn [render_json_tree get_value_type isinstance isinstance_any existsb type_of
       issubclass class_eqb orb String.eqb Ascii.eqb Bool.eqb fmt str].
  exists ("<div class=" ++ dq ++ "tree-node "
          ++ (if highlight_test term (PStr s) then "json-highlight" else "")
          ++ dq ++ ">"), "</div>".
  rewrite !append_assoc. reflexivity.
Qed.

Lemma render_json_tree_text_verbatim_witness :
  occurs_in
    ("<span class=" ++ dq ++ "json-key" ++ dq ++ ">" ++ "<b>k</b>" ++ "</span>: "
     ++ "<span class=" ++ dq ++ "json-string" ++ dq ++ ">" ++ dq
     ++ "<script>x</script>" ++ dq ++ "</span>")
    (render_json_tree (PDict [("<b>k</b>", PStr "<script>x</script>")]) "root" "" 0).
Proof.
  apply (render_json_tree_text_verbatim
           (PDict [("<b>k</b>", PStr "<script>x</script>")]) "" 1
           "<b>k</b>" "<script>x</script>").
  apply (node_member _ 0 "root" [("<b>k</b>", PStr "<script>x</script>")]).
  - apply node_root.
  - simpl. left. reflexivity.
Defined.

Lemma join_empty_cons (x : string) (rest : list string) :
  join "" (x :: rest) = x ++ join "" rest.
Proof.
  destruct rest; cbn [join append]; [now rewrite append_empty_r | reflexivity].
Qed.

Lemma for_each_join {A : Type} (body : string -> A -> string) (g : A -> string) :
  (forall acc x, body acc x = acc ++ g x) ->
  forall l acc, for_each body l acc = acc ++ join "" (map g l).
Proof.
  intros Hbody l; induction l as [|x rest IH]; intros acc.
  - cbn. now rewrite append_empty_r.
  - cbn [for_each map]. rewrite IH, Hbody, join_empty_cons, append_assoc.
    reflexivity.
Qed.

Lemma for_enumerate_join {A : Type} (body : string -> Z -> A -> string)
      (g : Z -> A -> string) :
  (forall acc i x, body acc i x = acc ++ g i x) ->
  forall l n acc,
    for_enumerate body (Z.of_nat n) l acc
    = acc ++ join "" (map (fun ix : nat * A => g (Z.of_nat (fst ix)) (snd ix))
                          (combine (seq n (List.length l)) l)).
Proof.
  intros Hbody l; induction l as [|x rest IH]; intros n acc.
  - cbn. now rewrite append_empty_r.
  - cbn [for_enumerate List.length seq combine map fst snd].
    replace (Z.of_nat n + 1) with (Z.of_nat (S n)) by lia.
    rewrite IH, Hbody, join_empty_cons, append_assoc. reflexivity.
Qed.

(** X11.  The children of a container are rendered one level deeper, each in
    its own list item, in the order of the document and with nothing between
    them: the members of an object under their keys, the elements of an array
    under their indices in brackets, counted from 0. *)
Theorem render_json_tree_children (key term : string) (level : Z) :
  (forall items,
      occurs_in
        ("<ul>"
         ++ join "" (map (fun kv : string * PyValue =>
                            "<li>" ++ render_json_tree (snd kv) (fst kv) term (level + 1)
                            ++ "</li>")
                         items)
         ++ "</ul>")
        (render_json_tree (PDict items) key term level)) /\
  (forall elems,
      occurs_in
        ("<ul>"
         ++ join "" (map (fun ix : nat * PyValue =>
                            "<li>"
                            ++ render_json_tree (snd ix)
                                 ("[" ++ int_str (Z.of_nat (fst ix)) ++ "]")
                                 term (level + 1)
                            ++ "</li>")
                         (combine (seq 0 (List.length elems)) elems))
         ++ "</ul>")
        (render_json_tree (PList elems) key term level)).
Proof.
  split.
  - intros items.
    cbn [render_json_tree get_value_type isinstance isinstance_any existsb type_of
         issubclass class_eqb orb String.eqb Ascii.eqb Bool.eqb].
    rewrite (for_each_join
               (fun content (kv : string * PyValue) =>
                  let (k, v) := kv in
                  content ++ "<li>" ++ render_json_tree v k term (level + 1) ++ "</li>")
               (fun kv : string * PyValue =>
                  "<li>" ++ render_json_tree (snd kv) (fst kv) term (level + 1)
                  ++ "</li>"))
      by (intros acc [k v]; reflexivity).
    rewrite (append_assoc "<ul>"). find_occurrence.
  - intros elems.
    cbn [render_json_tree get_value_type isinstance isinstance_any existsb type_of
         issubclass class_eqb orb String.eqb Ascii.eqb Bool.eqb].
    change 0 with (Z.of_nat 0) at 1.
    rewrite (for_enumerate_join
               (fun content i item =>
                  content ++ "<li>"
                  ++ render_json_tree item ("[" ++ int_str i ++ "]") term (level + 1)
                  ++ "</li>")
               (fun i item =>
                  "<li>"
                  ++ render_json_tree item ("[" ++ int_str i ++ "]") term (level + 1)
                  ++ "</li>"))
      by reflexivity.
    rewrite (append_assoc "<ul>"). find_occurrence.
Qed.

(** ** [search_json]: what the hits are *)

Lemma contains_empty (hay : string) : contains "" hay = true.
Proof. destruct hay; reflexivity. Qed.

Lemma filter_all {A : Type} (f : A -> bool) (l : list A) :
  (forall x, f x = true) -> filter f l = l.
Proof.
  intros H. induction l as [|x rest IH]; [reflexivity|].
  cbn [filter]. now rewrite H, IH.
Qed.

(** X13.  The search has no case of its own for the empty term: it is in
    every key, so every key-value pair of every object of the document is a
    hit, in pre-order. *)
Theorem search_json_empty_term (data : PyValue) (path : string) :
  search_json data "" path = preorder_pairs data path.
Proof.
  rewrite search_json_filter_preorder. apply filter_all.
  intros h. unfold pair_matches, key_test. cbn [lower].
  now rewrite contains_empty.
Qed.

(** X14.  The search does not tell the case of the term: two terms with the
    same lower-case form give the same hits. *)
Theorem search_json_term_case (data : PyValue) (t1 t2 path : string) :
  lower t1 = lower t2 ->
  search_json data t1 path = search_json data t2 path.
Proof.
  intros H. rewrite !search_json_filter_preorder. apply filter_ext.
  intros h. unfold pair_matches, key_test, value_test. now rewrite H.
Qed.

Lemma search_json_term_case_witness :
  search_json object_a1_bc2 "C" "" = search_json object_a1_bc2 "c" "".
Proof.
  apply (search_json_term_case object_a1_bc2 "C" "c" ""). reflexivity.
Defined.

Lemma preorder_list_in (h : SearchHit) (path : string) (elems : list PyValue) :
  In h (preorder_pairs (PList elems) path) ->
  exists x i, In x elems /\ In h (preorder_pairs x (element_path path i)).
Proof.
  cbn [preorder_pairs]. generalize 0 as i.
  induction elems as [|y rest IH]; intros i Hin; [contradiction|].
  apply in_app_or in Hin. destruct Hin as [Hin | Hin].
  - exists y, i. split; [now left | exact Hin].
  - destruct (IH _ Hin) as (x & j & Hx & Hh).
    exists x, j. split; [now right | exact Hh].
Qed.

Lemma tree_node_root_only (v : PyValue) label x :
  tree_node v 0 label x -> x = v.
Proof. intros H. inversion H. reflexivity. Qed.

(** A node below a node of the tree is a node of the tree. *)
Lemma tree_node_graft (root v : PyValue) d label0 :
  tree_node root d label0 v ->
  forall n label x,
    tree_node v n label x -> n <> 0%nat ->
    tree_node root (d + n) label x.
Proof.
  intros Hv n label x Hx.
  induction Hx as [|n label items k x Hparent IH Hin|n label elems i x Hparent IH Hi];
    intros Hn; [congruence| |].
  - rewrite Nat.add_succ_r. destruct n as [|n].
    + apply tree_node_root_only in Hparent. subst v.
      rewrite Nat.add_0_r. now apply (node_member root d label0 items).
    + apply (node_member root _ label items); [|exact Hin].
      apply IH. discriminate.
  - rewrite Nat.add_succ_r. destruct n as [|n].
    + apply tree_node_root_only in Hparent. subst v.
      rewrite Nat.add_0_r. now apply (node_element root d label0 elems).
    + apply (node_element root _ label elems); [|exact Hi].
      apply IH. discriminate.
Qed.

Lemma preorder_pairs_are_nodes (data : PyValue) :
  forall path h,
    In h (preorder_pairs data path) ->
    exists d, tree_node data (S d) (hit_key h) (hit_value h).
Proof.
  induction data as [s|n|f|b| |items IH|elems IH] using PyValue_ind;
    intros path h Hin; try contradiction.
  - cbn [preorder_pairs] in Hin. apply in_flat_map in Hin.
    destruct Hin as ([k v] & Hkv & Hin).
    assert (tree_node (PDict items) 1 k v) as Hnode
        by (apply (node_member _ 0 "root" items); [apply node_root | exact Hkv]).
    destruct Hin as [<- | Hin].
    + exists 0%nat. exact Hnode.
    + rewrite Forall_forall in IH. specialize (IH _ Hkv). cbn [snd] in IH.
      destruct (IH _ _ Hin) as [d Hd].
      exists (S d).
      exact (tree_node_graft _ _ _ _ Hnode _ _ _ Hd (Nat.neq_succ_0 d)).
  - destruct (preorder_list_in _ _ _ Hin) as (x & i & Hx & Hh).
    rewrite Forall_forall in IH. destruct (IH _ Hx _ _ Hh) as [d Hd].
    destruct (In_nth_error _ _ Hx) as [j Hj].
    assert (tree_node (PList elems) 1 ("[" ++ int_str (Z.of_nat j) ++ "]") x)
      as Hnode
        by (apply (node_element _ 0 "root" elems j); [apply node_root | exact Hj]).
    exists (S d).
    exact (tree_node_graft _ _ _ _ Hnode _ _ _ Hd (Nat.neq_succ_0 d)).
Qed.

(** X15.  Every hit is a pair of the document that passes the test: its
    value is a node of the tree below the root, shown there under the hit's
    key, and the term is in that key or in the text of that value. *)
Theorem search_json_hits_are_nodes (data : PyValue) (term path : string) (h : SearchHit) :
  In h (search_json data term path) ->
  (key_test term (hit_key h) = true \/ value_test term (hit_value h) = true) /\
  exists d, tree_node data (S d) (hit_key h) (hit_value h).
Proof.
  rewrite search_json_filter_preorder, filter_In. intros [Hin Hm]. split.
  - unfold pair_matches in Hm. now apply orb_true_iff.
  - exact (preorder_pairs_are_nodes data path h Hin).
Qed.

Lemma search_json_hits_are_nodes_witness :
  (key_test "c" "c" = true \/ value_test "c" (PInt 2) = true) /\
  exists d, tree_node object_a1_bc2 (S d) "c" (PInt 2).
Proof.
  apply (search_json_hits_are_nodes object_a1_bc2 "c" "" (mkHit "b.c" "c" (PInt 2))).
  simpl. right. left. reflexivity.
Defined.

(** X16.  A match by value goes up: when the term is in the [json.dumps]
    text of a value anywhere inside the value of a pair, be it in an array or
    several objects deep, that pair is a hit too. *)
Theorem search_json_value_match_goes_up
        (items : list (string * PyValue)) (k : string) (v : PyValue)
        (term path : string) d label x :
  In (k, v) items ->
  tree_node v d label x ->
  value_test term x = true ->
  In (mkHit (if PyStr.truthy path then path ++ "." ++ k else k) k v)
     (search_json (PDict items) term path).
Proof.
  intros Hkv Hnode Hx.
  assert (value_test term v = true) as Hv.
  { unfold value_test in *.
    exact (contains_inside _ _ _ Hx (tree_node_dumps_inside _ _ _ _ Hnode)). }
  rewrite search_json_dict. apply in_flat_map. exists (k, v). split; [exact Hkv|].
  unfold member_hits, member_path. rewrite Hv, orb_true_r. now left.
Qed.

Lemma search_json_value_match_goes_up_witness :
  In (mkHit "list" "list" (PList [PInt 10; PInt 20]))
     (search_json object_list_10_20 "20" "").
Proof.
  apply (search_json_value_match_goes_up
           [("list", PList [PInt 10; PInt 20])] "list" (PList [PInt 10; PInt 20])
           "20" "" 1 "[1]" (PInt 20)).
  - simpl. left. reflexivity.
  - apply (node_element _ 0 "root" [PInt 10; PInt 20] 1).
    + apply node_root.
    + reflexivity.
  - reflexivity.
Defined.

Lemma preorder_pairs_path_shape (data : PyValue) :
  forall path h,
    In h (preorder_pairs data path) ->
    (exists rest, hit_path h = path ++ rest) /\
    (hit_path h = hit_key h \/ exists p, hit_path h = p ++ "." ++ hit_key h).
Proof.
  induction data as [s|n|f|b| |items IH|elems IH] using PyValue_ind;
    intros path h Hin; try contradiction.
  - cbn [preorder_pairs] in Hin. apply in_flat_map in Hin.
    destruct Hin as ([k v] & Hkv & Hin).
    assert (exists rest, member_path path k = path ++ rest) as [r0 Hr0].
    { unfold member_path. destruct path as [|c p].
      - exists k. reflexivity.
      - cbn [PyStr.truthy]. eexists. reflexivity. }
    destruct Hin as [<- | Hin]; cbn [hit_path hit_key].
    + split; [exists r0; exact Hr0|].
      unfold member_path. destruct path as [|c p]; cbn [PyStr.truthy].
      * now left.
      * right. exists (String c p). reflexivity.
    + rewrite Forall_forall in IH. specialize (IH _ Hkv). cbn [snd] in IH.
      destruct (IH _ _ Hin) as [[r Hr] Hkey]. split; [|exact Hkey].
      exists (r0 ++ r). now rewrite Hr, Hr0, append_assoc.
  - destruct (preorder_list_in _ _ _ Hin) as (x & i & Hx & Hh).
    rewrite Forall_forall in IH.
    destruct (IH _ Hx _ _ Hh) as [[r Hr] Hkey]. split; [|exact Hkey].
    exists (("[" ++ int_str i ++ "]") ++ r).
    rewrite Hr. unfold element_path. now rewrite !append_assoc.
Qed.

(** X17.  The path of every hit starts with the path the search was given
    and ends with the hit's key: it is the key alone, or it ends with a dot
    and the key. *)
Theorem search_json_path_shape (data : PyValue) (term path : string) (h : SearchHit) :
  In h (search_json data term path) ->
  (exists rest, hit_path h = path ++ rest) /\
  (hit_path h = hit_key h \/ exists p, hit_path h = p ++ "." ++ hit_key h).
Proof.
  rewrite search_json_filter_preorder, filter_In. intros [Hin _].
  exact (preorder_pairs_path_shape data path h Hin).
Qed.

Lemma search_json_path_shape_witness :
  (exists rest, "doc[0].n" = "doc" ++ rest) /\
  ("doc[0].n" = "n" \/ exists p, "doc[0].n" = p ++ "." ++ "n").
Proof.
  apply (search_json_path_shape (PList [PDict [("n", PInt 20)]]) "20" "doc"
                                (mkHit "doc[0].n" "n" (PInt 20))).
  simpl. left. reflexivity.
Defined.

(** ** [main]: what the page shows *)

Lemma flat_map_singleton {A B : Type} (f : A -> B) (l : list A) :
  flat_map (fun x => [f x]) l = map f l.
Proof. induction l as [|x rest IH]; [reflexivity|]. cbn. now rewrite IH. Qed.


(** X19.  A document that was decoded but is false in a condition (the
    empty object, the empty array, the empty text, zero, false, null) is
    treated in the left column like a failure without a message: no success
    line, no file line, no search and no copy; the right column draws its
    tree with the empty term. *)
Theorem main_falsy_document (json_loads : string -> PyValue + string)
        (name text query : string) (clicked : bool) (v : PyValue) :
  json_loads (remove_comments text) = inl v ->
  Py.truthy v = false ->
  left_column (main json_loads (mkWidgets (Some (name, text)) query clicked))
  = [st_header "Upload and Search"] /\
  right_column (main json_loads (mkWidgets (Some (name, text)) query clicked))
  = [st_header "JSON Tree View";
     st_markdown
       (nl ++ spaces 16 ++ "<div class=" ++ dq ++ "json-container" ++ dq ++ ">"
        ++ nl ++ spaces 20 ++ "<div class=" ++ dq ++ "tree" ++ dq ++ ">"
        ++ render_json_tree v "root" "" 0
        ++ "</div>"
        ++ nl ++ spaces 16 ++ "</div>"
        ++ nl ++ spaces 12)].
Proof.
  intros Hloads Hfalsy.
  unfold main, main_left, parse_json_file. cbn [file_uploader text_input button].
  rewrite Hloads, Hfalsy. split; reflexivity.
Qed.

Lemma main_falsy_document_witness :
  loads_null_only (remove_comments "null// nothing") = inl PNone /\
  left_column
    (main loads_null_only (mkWidgets (Some ("null.json", "null// nothing")) "n" true))
  = [st_header "Upload and Search"].
Proof.
  split; [reflexivity|].
  apply (main_falsy_document loads_null_only "null.json" "null// nothing" "n" true
                             PNone); reflexivity.
Defined.

(** X20.  For a decoded document that is true in a condition the left column
    shows, in this order: the header, the success line, the file line with
    the length of the uploaded text (comments included); when the search box
    is not empty, the number of hits and one expander per hit of
    [search_json] from the empty path, in the order of the hits, each with
    the hit's key and value; when the button is pressed, the indented text and
    the copy line. *)
Theorem main_left_column (json_loads : string -> PyValue + string)
        (name text query : string) (clicked : bool) (v : PyValue) :
  json_loads (remove_comments text) = inl v ->
  Py.truthy v = true ->
  left_column (main json_loads (mkWidgets (Some (name, text)) query clicked))
  = ([st_header "Upload and Search";
      st_success "✅ File uploaded and parsed successfully.";
      st_info ("📁 " ++ name ++ " ("
               ++ int_str (Z.of_nat (String.length text)) ++ " bytes)")]
     ++ (if PyStr.truthy query then
           st_write ("Found "
                     ++ int_str (Z.of_nat (List.length (search_json v query "")))
                     ++ " results:")
           :: map (fun h =>
                     st_expander ("Path: " ++ hit_path h)
                       [st_write ("**Key:** " ++ hit_key h); st_json (hit_value h)])
                  (search_json v query "")
         else [])
     ++ (if clicked then
           [st_code (Json.dumps_indent 0 v);
            st_success "✅ JSON copied to clipboard! (Use Ctrl+C to copy)"]
         else []))%list.
Proof.
  intros Hloads Htruthy.
  unfold main, main_left, parse_json_file. cbn [file_uploader text_input button].
  rewrite Hloads, Htruthy. cbn [left_column app].
  destruct (PyStr.truthy query).
  - rewrite for_each_appends
      with (g := fun h => [st_expander ("Path: " ++ hit_path h)
                             [st_write ("**Key:** " ++ hit_key h);
                              st_json (hit_value h)]])
      by reflexivity.
    rewrite flat_map_singleton.
    destruct clicked; cbn [app left_column]; rewrite <- ?app_assoc, ?app_nil_r;
      reflexivity.
  - destruct clicked; reflexivity.
Qed.

Lemma main_left_column_witness :
  loads_one_two_only (remove_comments "[1, 2]// two") = inl (PList [PInt 1; PInt 2]) /\
  left_column
    (main loads_one_two_only
          (mkWidgets (Some ("two.json", "[1, 2]// two")) "2" false))
  = [st_header "Upload and Search";
     st_success "✅ File uploaded and parsed successfully.";
     st_info "📁 two.json (12 bytes)";
     st_write "Found 0 results:"].
Proof.
  split; [reflexivity|].
  apply (main_left_column loads_one_two_only "two.json" "[1, 2]// two" "2" false
                          (PList [PInt 1; PInt 2])); reflexivity.
Defined.
